(** * LTR-303 ambient light sensor component

    Shallow embedding of [components/ltr303/ltr303.h]: the register model
    (addresses, enumerations, the three register unions), the component's
    data members with their default initialisers, and the configuration
    setters.  The member functions the header only declares
    ([is_data_ready_], [read_sensor_data_], [are_adjustments_required_],
    [apply_lux_calculation_], the [configure_*_] family) have their bodies outside the header; they are
    modelled from the specification, and every such definition says so.

    Conventions.
    - A [uint8_t] is a [Z] in [0, 256); a [uint16_t] is a [Z] in [0, 65536).
    - An enumeration with a fixed underlying type ([Gain], [IntegrationTime])
      is the value of its underlying byte; the enumerators are named
      constants, and the list of enumerators tells which values carry a name.
    - A register union is its [raw] byte; the bit-field struct that overlays it
      is a record of fields, read from the byte by [decode] and stored into
      the byte by [encode].  Bit-fields are allocated from the least
      significant bit upwards, in declaration order (the layout the ESP
      toolchains use, and the one the datasheet comments of the header
      describe).
    - A [float] is an IEEE-754 binary32 datum, represented by [spec_float]. *)

From Stdlib Require Import ZArith List Bool Lia SpecFloat.
Import ListNotations.
Open Scope Z_scope.

(** ** Machine integers and bit-fields *)

Definition uint8_t := Z.
Definition uint16_t := Z.

Definition is_uint8 (v : Z) : bool := (0 <=? v) && (v <? 256).

(** Reading a bool bit-field of width 1 at position [pos]. *)
Definition get_bit (raw : uint8_t) (pos : Z) : bool := Z.testbit raw pos.

(** Reading an unsigned bit-field of width 3 at position [pos]. *)
Definition get_bits3 (raw : uint8_t) (pos : Z) : Z := Z.land (Z.shiftr raw pos) 7.

(** Storing a bool into a bit-field of width 1 at position [pos]. *)
Definition put_bit (v : bool) (pos : Z) : uint8_t := Z.shiftl (Z.b2z v) pos.

(** Storing a value into a bit-field of width 3: the value is truncated to
    the width of the field. *)
Definition put_bits3 (v : Z) (pos : Z) : uint8_t := Z.shiftl (Z.land v 7) pos.

(** All the bytes, in increasing order. *)
Definition all_bytes : list Z := map Z.of_nat (seq 0 256).

(** All the patterns three bits can hold. *)
Definition all_bits3 : list Z := [0; 1; 2; 3; 4; 5; 6; 7].

(** ** Register addresses *)

Inductive CommandRegisters : Set :=
| ALS_CTRL     (* ALS operation mode control SW reset *)
| MEAS_RATE    (* ALS measurement rate in active mode *)
| PART_ID      (* Part Number ID and Revision ID *)
| MANU_ID      (* Manufacturer ID *)
| CH1_0        (* ALS measurement CH1 data, lower byte - infrared only *)
| CH1_1        (* ALS measurement CH1 data, upper byte - infrared only *)
| CH0_0        (* ALS measurement CH0 data, lower byte - visible + infrared *)
| CH0_1        (* ALS measurement CH0 data, upper byte - visible + infrared *)
| ALS_STATUS.  (* ALS new data status *)

(** The [(uint8_t)] cast of an enumerator. *)
Definition CommandRegisters_value (r : CommandRegisters) : uint8_t :=
  match r with
  | ALS_CTRL => 0x80
  | MEAS_RATE => 0x85
  | PART_ID => 0x86
  | MANU_ID => 0x87
  | CH1_0 => 0x88
  | CH1_1 => 0x89
  | CH0_0 => 0x8A
  | CH0_1 => 0x8B
  | ALS_STATUS => 0x8c
  end.

Definition all_CommandRegisters : list CommandRegisters :=
  [ALS_CTRL; MEAS_RATE; PART_ID; MANU_ID; CH1_0; CH1_1; CH0_0; CH0_1; ALS_STATUS].

(** ** Enumerations *)

(** Sensor gain levels: [enum Gain : uint8_t]. *)
Definition Gain := uint8_t.
Definition GAIN_1 : Gain := 0.
Definition GAIN_2 : Gain := 1.
Definition GAIN_4 : Gain := 2.
Definition GAIN_8 : Gain := 3.
Definition GAIN_48 : Gain := 6.
Definition GAIN_96 : Gain := 7.
Definition GAINS_COUNT : uint8_t := 6.

Definition Gain_enumerators : list Gain :=
  [GAIN_1; GAIN_2; GAIN_4; GAIN_8; GAIN_48; GAIN_96].

(** [enum IntegrationTime : uint8_t]. *)
Definition IntegrationTime := uint8_t.
Definition INTEGRATION_TIME_100MS : IntegrationTime := 0.
Definition INTEGRATION_TIME_50MS : IntegrationTime := 1.
Definition INTEGRATION_TIME_200MS : IntegrationTime := 2.
Definition INTEGRATION_TIME_400MS : IntegrationTime := 3.
Definition INTEGRATION_TIME_150MS : IntegrationTime := 4.
Definition INTEGRATION_TIME_250MS : IntegrationTime := 5.
Definition INTEGRATION_TIME_300MS : IntegrationTime := 6.
Definition INTEGRATION_TIME_350MS : IntegrationTime := 7.
Definition TIMES_COUNT : uint8_t := 8.

Definition IntegrationTime_enumerators : list IntegrationTime :=
  [INTEGRATION_TIME_100MS; INTEGRATION_TIME_50MS; INTEGRATION_TIME_200MS;
   INTEGRATION_TIME_400MS; INTEGRATION_TIME_150MS; INTEGRATION_TIME_250MS;
   INTEGRATION_TIME_300MS; INTEGRATION_TIME_350MS].

(** [enum MeasurementRepeatRate] (no fixed underlying type). *)
Definition MeasurementRepeatRate := Z.
Definition REPEAT_RATE_50MS : MeasurementRepeatRate := 0.
Definition REPEAT_RATE_100MS : MeasurementRepeatRate := 1.
Definition REPEAT_RATE_200MS : MeasurementRepeatRate := 2.
Definition REPEAT_RATE_500MS : MeasurementRepeatRate := 3.
Definition REPEAT_RATE_1000MS : MeasurementRepeatRate := 4.
Definition REPEAT_RATE_2000MS : MeasurementRepeatRate := 5.

(** Does a value of the enumeration type carry the name of an enumerator? *)
Definition is_enumerator (enumerators : list Z) (v : Z) : bool :=
  existsb (Z.eqb v) enumerators.

(** The enumeration value a three-bit field holds (reading a bit-field of
    type [Gain : 3] or [IntegrationTime : 3]): the pattern itself, cast to the
    enumeration type. *)
Definition Gain_of_bits (p : Z) : Gain := Z.land p 7.
Definition IntegrationTime_of_bits (p : Z) : IntegrationTime := Z.land p 7.

(** The three bits stored for an enumeration value (writing such a field). *)
Definition Gain_to_bits (g : Gain) : Z := Z.land g 7.
Definition IntegrationTime_to_bits (t : IntegrationTime) : Z := Z.land t 7.

(** ** ALS_CONTR Register (0x80) *)

Module ControlRegister.

Record fields : Set := mk {
    active_mode : bool;   (* : 1 *)
    sw_reset : bool;      (* : 1 *)
    gain : Gain;          (* : 3 *)
    reserved : uint8_t    (* : 3 *)
  }.

  (** The fields seen through the union when [raw] holds [b]. *)
Definition decode (b : uint8_t) : fields :=
    {| active_mode := get_bit b 0;
       sw_reset := get_bit b 1;
       gain := Gain_of_bits (get_bits3 b 2);
       reserved := get_bits3 b 5 |}.

  (** The [raw] byte seen through the union when the fields hold [f]. *)
Definition encode (f : fields) : uint8_t :=
    Z.lor (Z.lor (put_bit (active_mode f) 0) (put_bit (sw_reset f) 1))
          (Z.lor (put_bits3 (Gain_to_bits (gain f)) 2) (put_bits3 (reserved f) 5)).

  (** The bits of the byte no named field but [reserved] covers. *)
Definition reserved_mask : uint8_t := 0xE0.

  (** Assignments to single fields of the union, as the component writes them
      ([reg.gain = g] and the like). *)
Definition set_active_mode (v : bool) (b : uint8_t) : uint8_t :=
    encode {| active_mode := v; sw_reset := sw_reset (decode b);
              gain := gain (decode b); reserved := reserved (decode b) |}.
Definition set_sw_reset (v : bool) (b : uint8_t) : uint8_t :=
    encode {| active_mode := active_mode (decode b); sw_reset := v;
              gain := gain (decode b); reserved := reserved (decode b) |}.
Definition set_gain (v : Gain) (b : uint8_t) : uint8_t :=
    encode {| active_mode := active_mode (decode b); sw_reset := sw_reset (decode b);
              gain := v; reserved := reserved (decode b) |}.

End ControlRegister.

(** ** ALS_MEAS_RATE Register (0x85) *)

Module MeasurementRateRegister.

Record fields : Set := mk {
    measurement_repeat_rate : MeasurementRepeatRate;  (* : 3 *)
    integration_time : IntegrationTime;               (* : 3 *)
    reserved_6 : bool;                                (* : 1 *)
    reserved_7 : bool                                 (* : 1 *)
  }.

Definition decode (b : uint8_t) : fields :=
    {| measurement_repeat_rate := get_bits3 b 0;
       integration_time := IntegrationTime_of_bits (get_bits3 b 3);
       reserved_6 := get_bit b 6;
       reserved_7 := get_bit b 7 |}.

Definition encode (f : fields) : uint8_t :=
    Z.lor (Z.lor (put_bits3 (measurement_repeat_rate f) 0)
                 (put_bits3 (IntegrationTime_to_bits (integration_time f)) 3))
          (Z.lor (put_bit (reserved_6 f) 6) (put_bit (reserved_7 f) 7)).

Definition reserved_mask : uint8_t := 0xC0.

Definition set_integration_time (v : IntegrationTime) (b : uint8_t) : uint8_t :=
    encode {| measurement_repeat_rate := measurement_repeat_rate (decode b);
              integration_time := v;
              reserved_6 := reserved_6 (decode b);
              reserved_7 := reserved_7 (decode b) |}.
Definition set_measurement_repeat_rate (v : MeasurementRepeatRate) (b : uint8_t)
    : uint8_t :=
    encode {| measurement_repeat_rate := v;
              integration_time := integration_time (decode b);
              reserved_6 := reserved_6 (decode b);
              reserved_7 := reserved_7 (decode b) |}.

End MeasurementRateRegister.

(** ** ALS_STATUS Register (0x8C) (Read Only) *)

Module StatusRegister.

Record fields : Set := mk {
    reserved_0 : bool;    (* : 1 *)
    reserved_1 : bool;    (* : 1 *)
    new_data : bool;      (* : 1 *)
    reserved_3 : bool;    (* : 1 *)
    gain : Gain;          (* : 3 *)
    data_invalid : bool   (* : 1 *)
  }.

Definition decode (b : uint8_t) : fields :=
    {| reserved_0 := get_bit b 0;
       reserved_1 := get_bit b 1;
       new_data := get_bit b 2;
       reserved_3 := get_bit b 3;
       gain := Gain_of_bits (get_bits3 b 4);
       data_invalid := get_bit b 7 |}.

Definition encode (f : fields) : uint8_t :=
    Z.lor (Z.lor (Z.lor (put_bit (reserved_0 f) 0) (put_bit (reserved_1 f) 1))
                 (Z.lor (put_bit (new_data f) 2) (put_bit (reserved_3 f) 3)))
          (Z.lor (put_bits3 (Gain_to_bits (gain f)) 4) (put_bit (data_invalid f) 7)).

Definition reserved_mask : uint8_t := 0x0B.

End StatusRegister.

Inductive DataAvail : Set := NO_DATA | BAD_DATA | DATA_OK.

(** ** The component *)

(** [float]: an IEEE-754 binary32 datum. *)
Definition float := spec_float.
Definition float_prec : Z := 24.
Definition float_emax : Z := 128.

(** The literals [0.0f] and [1.0], in the normal form of binary32. *)
Definition float_zero : float := S754_zero false.
Definition float_one : float := S754_finite false 8388608 (-23).

(** [sensor::Sensor *]: the null pointer, or the address of a sink. *)
Definition SensorPtr : Set := option positive.
Definition nullptr : SensorPtr := None.

(** Internal state machine, used to split all the actions into small steps
    in [loop()]. *)
Inductive State : Set :=
| NOT_INITIALIZED
| DELAYED_SETUP
| IDLE
| WAITING_FOR_DATA
| COLLECTING_DATA_AUTO
| DATA_COLLECTED
| ADJUSTMENT_IN_PROGRESS
| READY_TO_PUBLISH
| KEEP_PUBLISHING.

(** Current measurements data. *)
Record Readings : Set := mkReadings {
  ch0 : uint16_t;
  ch1 : uint16_t;
  actual_gain : Gain;
  integration_time : IntegrationTime;
  lux : float
}.

(** The default member initialisers of [Readings]. *)
Definition Readings_init : Readings :=
  {| ch0 := 0;
     ch1 := 0;
     actual_gain := GAIN_1;
     integration_time := INTEGRATION_TIME_100MS;
     lux := float_zero |}.

(** The data members of [LTR303Component] (the members of its base classes
    belong to the framework). *)
Record LTR303Component : Set := mkComponent {
  state_ : State;
  readings_ : Readings;
  (* Component configuration *)
  automatic_mode_enabled_ : bool;
  gain_ : Gain;
  integration_time_ : IntegrationTime;
  repeat_rate_ : MeasurementRepeatRate;
  glass_attenuation_factor_ : float;
  (* Sensors for publishing data *)
  infrared_counts_sensor_ : SensorPtr;
  full_spectrum_counts_sensor_ : SensorPtr;
  ambient_light_sensor_ : SensorPtr;
  actual_gain_sensor_ : SensorPtr;
  actual_integration_time_sensor_ : SensorPtr
}.

(** The component after its (implicit) constructor ran: every member holds
    its default member initialiser. *)
Definition LTR303Component_init : LTR303Component :=
  {| state_ := NOT_INITIALIZED;
     readings_ := Readings_init;
     automatic_mode_enabled_ := true;
     gain_ := GAIN_1;
     integration_time_ := INTEGRATION_TIME_100MS;
     repeat_rate_ := REPEAT_RATE_500MS;
     glass_attenuation_factor_ := float_one;
     infrared_counts_sensor_ := nullptr;
     full_spectrum_counts_sensor_ := nullptr;
     ambient_light_sensor_ := nullptr;
     actual_gain_sensor_ := nullptr;
     actual_integration_time_sensor_ := nullptr |}.

(** *** Configuration setters *)

Definition set_gain (gain : Gain) (this : LTR303Component) : LTR303Component :=
  mkComponent (state_ this) (readings_ this) (automatic_mode_enabled_ this)
    gain
    (integration_time_ this) (repeat_rate_ this) (glass_attenuation_factor_ this)
    (infrared_counts_sensor_ this) (full_spectrum_counts_sensor_ this)
    (ambient_light_sensor_ this) (actual_gain_sensor_ this)
    (actual_integration_time_sensor_ this).

Definition set_integration_time (time : IntegrationTime) (this : LTR303Component)
  : LTR303Component :=
  mkComponent (state_ this) (readings_ this) (automatic_mode_enabled_ this)
    (gain_ this)
    time
    (repeat_rate_ this) (glass_attenuation_factor_ this)
    (infrared_counts_sensor_ this) (full_spectrum_counts_sensor_ this)
    (ambient_light_sensor_ this) (actual_gain_sensor_ this)
    (actual_integration_time_sensor_ this).

Definition set_repeat_rate (rate : MeasurementRepeatRate) (this : LTR303Component)
  : LTR303Component :=
  mkComponent (state_ this) (readings_ this) (automatic_mode_enabled_ this)
    (gain_ this) (integration_time_ this)
    rate
    (glass_attenuation_factor_ this)
    (infrared_counts_sensor_ this) (full_spectrum_counts_sensor_ this)
    (ambient_light_sensor_ this) (actual_gain_sensor_ this)
    (actual_integration_time_sensor_ this).

Definition set_glass_attenuation_factor (factor : float) (this : LTR303Component)
  : LTR303Component :=
  mkComponent (state_ this) (readings_ this) (automatic_mode_enabled_ this)
    (gain_ this) (integration_time_ this) (repeat_rate_ this)
    factor
    (infrared_counts_sensor_ this) (full_spectrum_counts_sensor_ this)
    (ambient_light_sensor_ this) (actual_gain_sensor_ this)
    (actual_integration_time_sensor_ this).

Definition set_enable_automatic_mode (enable : bool) (this : LTR303Component)
  : LTR303Component :=
  mkComponent (state_ this) (readings_ this)
    enable
    (gain_ this) (integration_time_ this) (repeat_rate_ this)
    (glass_attenuation_factor_ this)
    (infrared_counts_sensor_ this) (full_spectrum_counts_sensor_ this)
    (ambient_light_sensor_ this) (actual_gain_sensor_ this)
    (actual_integration_time_sensor_ this).

Definition set_ambient_light_sensor (sensor : SensorPtr) (this : LTR303Component)
  : LTR303Component :=
  mkComponent (state_ this) (readings_ this) (automatic_mode_enabled_ this)
    (gain_ this) (integration_time_ this) (repeat_rate_ this)
    (glass_attenuation_factor_ this)
    (infrared_counts_sensor_ this) (full_spectrum_counts_sensor_ this)
    sensor
    (actual_gain_sensor_ this) (actual_integration_time_sensor_ this).

Definition set_full_spectrum_counts_sensor (sensor : SensorPtr)
  (this : LTR303Component) : LTR303Component :=
  mkComponent (state_ this) (readings_ this) (automatic_mode_enabled_ this)
    (gain_ this) (integration_time_ this) (repeat_rate_ this)
    (glass_attenuation_factor_ this)
    (infrared_counts_sensor_ this)
    sensor
    (ambient_light_sensor_ this) (actual_gain_sensor_ this)
    (actual_integration_time_sensor_ this).

Definition set_infrared_counts_sensor (sensor : SensorPtr) (this : LTR303Component)
  : LTR303Component :=
  mkComponent (state_ this) (readings_ this) (automatic_mode_enabled_ this)
    (gain_ this) (integration_time_ this) (repeat_rate_ this)
    (glass_attenuation_factor_ this)
    sensor
    (full_spectrum_counts_sensor_ this) (ambient_light_sensor_ this)
    (actual_gain_sensor_ this) (actual_integration_time_sensor_ this).

Definition set_actual_gain_sensor (sensor : SensorPtr) (this : LTR303Component)
  : LTR303Component :=
  mkComponent (state_ this) (readings_ this) (automatic_mode_enabled_ this)
    (gain_ this) (integration_time_ this) (repeat_rate_ this)
    (glass_attenuation_factor_ this)
    (infrared_counts_sensor_ this) (full_spectrum_counts_sensor_ this)
    (ambient_light_sensor_ this)
    sensor
    (actual_integration_time_sensor_ this).

Definition set_actual_integration_time_sensor (sensor : SensorPtr)
  (this : LTR303Component) : LTR303Component :=
  mkComponent (state_ this) (readings_ this) (automatic_mode_enabled_ this)
    (gain_ this) (integration_time_ this) (repeat_rate_ this)
    (glass_attenuation_factor_ this)
    (infrared_counts_sensor_ this) (full_spectrum_counts_sensor_ this)
    (ambient_light_sensor_ this) (actual_gain_sensor_ this)
    sensor.

(** *** The parts of the component state, for frame statements *)

(** One name per data member. *)
Inductive Member : Set :=
| M_state | M_readings | M_automatic_mode_enabled | M_gain | M_integration_time
| M_repeat_rate | M_glass_attenuation_factor
| M_infrared_counts_sensor | M_full_spectrum_counts_sensor
| M_ambient_light_sensor | M_actual_gain_sensor
| M_actual_integration_time_sensor.

Definition all_Members : list Member :=
  [M_state; M_readings; M_automatic_mode_enabled; M_gain; M_integration_time;
   M_repeat_rate; M_glass_attenuation_factor;
   M_infrared_counts_sensor; M_full_spectrum_counts_sensor;
   M_ambient_light_sensor; M_actual_gain_sensor;
   M_actual_integration_time_sensor].

(** What a data member holds. *)
Inductive MemberValue : Set :=
| V_state (s : State)
| V_readings (r : Readings)
| V_bool (b : bool)
| V_enum (v : Z)
| V_float (f : float)
| V_sensor (p : SensorPtr).

Definition member (m : Member) (this : LTR303Component) : MemberValue :=
  match m with
  | M_state => V_state (state_ this)
  | M_readings => V_readings (readings_ this)
  | M_automatic_mode_enabled => V_bool (automatic_mode_enabled_ this)
  | M_gain => V_enum (gain_ this)
  | M_integration_time => V_enum (integration_time_ this)
  | M_repeat_rate => V_enum (repeat_rate_ this)
  | M_glass_attenuation_factor => V_float (glass_attenuation_factor_ this)
  | M_infrared_counts_sensor => V_sensor (infrared_counts_sensor_ this)
  | M_full_spectrum_counts_sensor => V_sensor (full_spectrum_counts_sensor_ this)
  | M_ambient_light_sensor => V_sensor (ambient_light_sensor_ this)
  | M_actual_gain_sensor => V_sensor (actual_gain_sensor_ this)
  | M_actual_integration_time_sensor =>
      V_sensor (actual_integration_time_sensor_ this)
  end.

(** A call writes exactly the member [m], with the value [v]. *)
Definition writes_only (m : Member) (v : MemberValue)
  (before after : LTR303Component) : Prop :=
  member m after = v /\
  forall m', m' <> m -> member m' after = member m' before.

(** ** The bus transport *)

(** Modelled from the spec: what Device Control asks of its collaborators (the
    bus transport is external to the component): a register read, a register
    write, and the wait for the device to settle. *)
Inductive Effect : Set :=
| RegRead (address : uint8_t)
| RegWrite (address : uint8_t) (value : uint8_t)
| SettleDelay.

(** Modelled from the spec: the device behind the bus, as the byte each
    register answers with, and the accesses made so far, oldest first. *)
Record Bus : Type := mkBus {
  regs : Z -> uint8_t;
  trace : list Effect
}.

(** Device interaction threads the bus through every call. *)
Definition Dev (A : Type) : Type := Bus -> A * Bus.

Definition ret {A : Type} (a : A) : Dev A := fun bus => (a, bus).

Definition bind {A B : Type} (m : Dev A) (k : A -> Dev B) : Dev B :=
  fun bus => let (a, bus') := m bus in k a bus'.

Notation "x <- m ;; k" := (bind m (fun x => k))
  (at level 61, m at next level, right associativity).
Notation "m ;;; k" := (bind m (fun _ => k))
  (at level 61, right associativity).

Definition emit (e : Effect) : Dev unit :=
  fun bus => (tt, {| regs := regs bus; trace := trace bus ++ [e] |}).

(** Modelled from the spec: the transport's [read_register(address) -> byte];
    the answer is a byte. *)
Definition read_register (address : uint8_t) : Dev uint8_t :=
  fun bus => (Z.land (regs bus address) 0xFF,
              {| regs := regs bus; trace := trace bus ++ [RegRead address] |}).

(** Modelled from the spec: the transport's [write_register(address, byte)];
    the register answers with the byte written from then on. *)
Definition write_register (address : uint8_t) (value : uint8_t) : Dev unit :=
  fun bus =>
    (tt, {| regs := fun a => if a =? address then Z.land value 0xFF else regs bus a;
            trace := trace bus ++ [RegWrite address value] |}).

(** The accesses a call added to the trace. *)
Definition effects_of {A : Type} (m : Dev A) (bus : Bus) : list Effect :=
  skipn (length (trace bus)) (trace (snd (m bus))).

(** The register an effect addresses, if it is a bus access. *)
Definition effect_address (e : Effect) : option uint8_t :=
  match e with
  | RegRead a => Some a
  | RegWrite a _ => Some a
  | SettleDelay => None
  end.

(** The fixed addresses of the register model. *)
Definition fixed_addresses : list uint8_t :=
  map CommandRegisters_value all_CommandRegisters.

Definition uses_fixed_address (e : Effect) : bool :=
  match effect_address e with
  | Some a => existsb (Z.eqb a) fixed_addresses
  | None => true
  end.

(** Modelled from the spec: the combination of the two bytes of a channel,
    little-endian, into its 16-bit count (done inside the missing body of
    [read_sensor_data_]). *)
Definition combine_le (low high : uint8_t) : uint16_t :=
  Z.lor (Z.shiftl high 8) low.

(** ** Device Control *)

(** Modelled from the spec: the body of [configure_reset_and_activate_]
    (declared in the header, defined outside it).  It writes the control
    register with sw_reset=1, then, after the settle delay, writes
    active_mode=1, sw_reset=0, gain=configured gain. *)
Definition configure_reset_and_activate_ (this : LTR303Component) : Dev unit :=
  write_register (CommandRegisters_value ALS_CTRL)
    (ControlRegister.set_sw_reset true 0) ;;;
  emit SettleDelay ;;;
  write_register (CommandRegisters_value ALS_CTRL)
    (ControlRegister.set_gain (gain_ this)
       (ControlRegister.set_sw_reset false
          (ControlRegister.set_active_mode true 0))).

(** Modelled from the spec: the body of [configure_integration_time_]:
    read-modify-write of the measurement rate register, preserving the
    unrelated bits. *)
Definition configure_integration_time_ (time : IntegrationTime) : Dev unit :=
  raw <- read_register (CommandRegisters_value MEAS_RATE) ;;
  write_register (CommandRegisters_value MEAS_RATE)
    (MeasurementRateRegister.set_integration_time time raw).

(** Modelled from the spec: the body of [configure_gain_]: read-modify-write
    of the control register, preserving the unrelated bits. *)
Definition configure_gain_ (gain : Gain) : Dev unit :=
  raw <- read_register (CommandRegisters_value ALS_CTRL) ;;
  write_register (CommandRegisters_value ALS_CTRL)
    (ControlRegister.set_gain gain raw).

(** Modelled from the spec: the identity check of [setup()]: the transport is
    reachable when the identity registers answer with the expected part and
    manufacturer IDs (the expected values are constants of the missing
    body). *)
Definition identity_matches_ (expected_part expected_manu : uint8_t) : Dev bool :=
  part <- read_register (CommandRegisters_value PART_ID) ;;
  manu <- read_register (CommandRegisters_value MANU_ID) ;;
  ret ((part =? expected_part) && (manu =? expected_manu)).

(** The assignment [data.actual_gain = g]. *)
Definition stamp_actual_gain (g : Gain) (data : Readings) : Readings :=
  mkReadings (ch0 data) (ch1 data) g (integration_time data) (lux data).

(** Modelled from the spec: the body of [is_data_ready_]: it reads the status
    register; NO_DATA when new_data=0; BAD_DATA when new_data=1 and
    data_invalid=1; DATA_OK when new_data=1 and data_invalid=0.  When there is
    a sample it also records the gain the device reports for it. *)
Definition is_data_ready_ (data : Readings) : Dev (DataAvail * Readings) :=
  raw <- read_register (CommandRegisters_value ALS_STATUS) ;;
  let als_status := StatusRegister.decode raw in
  if negb (StatusRegister.new_data als_status) then ret (NO_DATA, data)
  else
    let data' := stamp_actual_gain (StatusRegister.gain als_status) data in
    if StatusRegister.data_invalid als_status then ret (BAD_DATA, data')
    else ret (DATA_OK, data').

(** Modelled from the spec: the body of [read_sensor_data_]: both channels are
    read, each as two single-byte reads, low byte then high byte, combined
    little-endian; the gain stamped from the status read stays in the
    record. *)
Definition read_sensor_data_ (data : Readings) : Dev Readings :=
  ch1_0 <- read_register (CommandRegisters_value CH1_0) ;;
  ch1_1 <- read_register (CommandRegisters_value CH1_1) ;;
  ch0_0 <- read_register (CommandRegisters_value CH0_0) ;;
  ch0_1 <- read_register (CommandRegisters_value CH0_1) ;;
  ret (mkReadings (combine_le ch0_0 ch0_1) (combine_le ch1_0 ch1_1)
         (actual_gain data) (integration_time data) (lux data)).

(** Modelled from the spec: the operations of Device Control (section 4.2,
    and the identity check of section 4.5), to speak of all of them at
    once. *)
Inductive DeviceOp : Set :=
| Op_identity (expected_part expected_manu : uint8_t)
| Op_reset_and_activate
| Op_configure_integration_time (time : IntegrationTime)
| Op_configure_gain (gain : Gain)
| Op_is_data_ready
| Op_read_sensor_data.

(** One operation, run on the component's readings record. *)
Definition run_op (op : DeviceOp) (this : LTR303Component) : Dev LTR303Component :=
  let with_readings (r : Readings) :=
    mkComponent (state_ this) r (automatic_mode_enabled_ this)
      (gain_ this) (integration_time_ this) (repeat_rate_ this)
      (glass_attenuation_factor_ this)
      (infrared_counts_sensor_ this) (full_spectrum_counts_sensor_ this)
      (ambient_light_sensor_ this) (actual_gain_sensor_ this)
      (actual_integration_time_sensor_ this) in
  match op with
  | Op_identity p m => identity_matches_ p m ;;; ret this
  | Op_reset_and_activate => configure_reset_and_activate_ this ;;; ret this
  | Op_configure_integration_time t => configure_integration_time_ t ;;; ret this
  | Op_configure_gain g => configure_gain_ g ;;; ret this
  | Op_is_data_ready =>
      r <- is_data_ready_ (readings_ this) ;; ret (with_readings (snd r))
  | Op_read_sensor_data =>
      r <- read_sensor_data_ (readings_ this) ;; ret (with_readings r)
  end.

Fixpoint run_ops (ops : list DeviceOp) (this : LTR303Component)
  : Dev LTR303Component :=
  match ops with
  | [] => ret this
  | op :: rest => this' <- run_op op this ;; run_ops rest this'
  end.

(** ** Adaptive Controller *)

(** Modelled from the spec: the order in which the missing body of
    [are_adjustments_required_] raises and lowers the settings; the gains from
    the least to the most sensitive (1x to 96x), and the integration times
    from the shortest to the longest (50 ms to 400 ms). *)
Definition gain_ladder : list Gain :=
  [GAIN_1; GAIN_2; GAIN_4; GAIN_8; GAIN_48; GAIN_96].

(** Modelled from the spec: see [gain_ladder]. *)
Definition time_ladder : list IntegrationTime :=
  [INTEGRATION_TIME_50MS; INTEGRATION_TIME_100MS; INTEGRATION_TIME_150MS;
   INTEGRATION_TIME_200MS; INTEGRATION_TIME_250MS; INTEGRATION_TIME_300MS;
   INTEGRATION_TIME_350MS; INTEGRATION_TIME_400MS].

(** Modelled from the spec: the next setting up ("not already at maximum").
    The rung above [v]; [v] itself at the top of the ladder, and for a value
    the ladder does not hold. *)
Fixpoint step_up (ladder : list Z) (v : Z) : Z :=
  match ladder with
  | a :: (b :: _) as rest => if a =? v then b else step_up rest v
  | _ => v
  end.

(** Modelled from the spec: the next setting down ("not already at
    minimum").  The rung below [v]; [v] itself at the bottom of the ladder,
    and for a value the ladder does not hold. *)
Definition step_down (ladder : list Z) (v : Z) : Z := step_up (rev ladder) v.

Section AdaptiveController.

(** The count below which a channel is under-range, and the count from which
    it is at or near saturation: constants of the missing body. *)
Variable LOW_INTENSITY_THRESHOLD : uint16_t.
Variable HIGH_INTENSITY_THRESHOLD : uint16_t.

(** Modelled from the spec: "both channels are below a low-count
    threshold". *)
Definition under_range (data : Readings) : bool :=
  (ch0 data <? LOW_INTENSITY_THRESHOLD) && (ch1 data <? LOW_INTENSITY_THRESHOLD).

(** Modelled from the spec: "either channel is at or near saturation". *)
Definition saturated (data : Readings) : bool :=
  (HIGH_INTENSITY_THRESHOLD <=? ch0 data) || (HIGH_INTENSITY_THRESHOLD <=? ch1 data).

(** The assignments [data.actual_gain = g; data.integration_time = t]. *)
Definition with_settings (g : Gain) (t : IntegrationTime) (data : Readings)
  : Readings :=
  mkReadings (ch0 data) (ch1 data) g t (lux data).

(** Modelled from the spec: one move of the missing body of
    [are_adjustments_required_] along the ladders; the gain first, the
    integration time when the gain cannot move; no move when neither can. *)
Definition adjust (gain_move time_move : Z -> Z) (data : Readings)
  : bool * Readings :=
  let g := gain_move (actual_gain data) in
  if negb (g =? actual_gain data)
  then (true, with_settings g (integration_time data) data)
  else
    let t := time_move (integration_time data) in
    if negb (t =? integration_time data)
    then (true, with_settings (actual_gain data) t data)
    else (false, data).

(** Modelled from the spec: the body of [are_adjustments_required_].  Active
    only when automatic mode is enabled.  If both channels are below the
    low-count threshold and gain/integration time are not already at maximum,
    increase gain first, then integration time.  If either channel is at or
    near saturation and gain/integration time are not already at minimum,
    decrease gain first, then integration time.  False otherwise.  The new
    settings are left in the readings record the call was given. *)
Definition are_adjustments_required_ (this : LTR303Component) (data : Readings)
  : bool * Readings :=
  if negb (automatic_mode_enabled_ this) then (false, data)
  else if under_range data
  then adjust (step_up gain_ladder) (step_up time_ladder) data
  else if saturated data
  then adjust (step_down gain_ladder) (step_down time_ladder) data
  else (false, data).

End AdaptiveController.

(** ** Predicates of the statements *)

(** Reading the fields of each register union from a byte and storing them
    back gives the byte. *)
Definition roundtrip_ok (b : Z) : bool :=
  (ControlRegister.encode (ControlRegister.decode b) =? b)
  && (MeasurementRateRegister.encode (MeasurementRateRegister.decode b) =? b)
  && (StatusRegister.encode (StatusRegister.decode b) =? b).

(** Two bytes agree on the bits a mask leaves out. *)
Definition agree_outside (mask a b : uint8_t) : Prop :=
  forall i, 0 <= i < 8 -> Z.testbit mask i = false -> Z.testbit a i = Z.testbit b i.

(** The reserved bits of an encoded control register are zero. *)
Definition reserved_written_zero (f : ControlRegister.fields) : Prop :=
  Z.land (ControlRegister.encode f) ControlRegister.reserved_mask = 0.

(** The byte a register of the device answers with. *)
Definition answer (bus : Bus) (r : CommandRegisters) : uint8_t :=
  Z.land (regs bus (CommandRegisters_value r)) 0xFF.

(** What the layout of the control register promises of the encoding of the
    fields [a], [s], [g], [r] (the last two already three bits wide). *)
Definition control_layout_ok (a s : bool) (g r : Z) : bool :=
  let b := ControlRegister.encode (ControlRegister.mk a s g r) in
  Bool.eqb (get_bit b 0) a
  && Bool.eqb (get_bit b 1) s
  && (get_bits3 b 2 =? g)
  && (get_bits3 b 5 =? r)
  && is_uint8 b
  && (b =? Z.b2z a + 2 * Z.b2z s + 4 * g + 32 * r)
  && Bool.eqb (Z.land b ControlRegister.reserved_mask =? 0) (r =? 0).

(** The control byte the component builds from a zeroed union by assigning
    the three named fields. *)
Definition control_from_zero (a s : bool) (g : Gain) : uint8_t :=
  ControlRegister.set_gain g
    (ControlRegister.set_sw_reset s (ControlRegister.set_active_mode a 0)).

(** The binary32 datum [f] is the integer [n]. *)
Definition float_is_integer (f : float) (n : Z) : Prop :=
  valid_binary float_prec float_emax f = true /\
  match f with
  | S754_zero _ => n = 0
  | S754_finite s m e =>
      e <= 0 /\ (if s then - Z.pos m else Z.pos m) = n * 2 ^ (- e)
  | _ => False
  end.

(** The registers a sequence of effects addresses, in order. *)
Fixpoint addresses_of (evs : list Effect) : list uint8_t :=
  match evs with
  | [] => []
  | e :: rest =>
      match effect_address e with
      | Some a => a :: addresses_of rest
      | None => addresses_of rest
      end
  end.

(** A device for the examples: status 0x64 (a valid new sample taken at
    GAIN_48), CH1 = 0x1234, CH0 = 0xBEEF, every other register zero, and no
    access made yet. *)
Definition example_bus : Bus :=
  mkBus (fun a =>
           if a =? 0x8C then 0x64
           else if a =? 0x88 then 0x34 else if a =? 0x89 then 0x12
           else if a =? 0x8A then 0xEF else if a =? 0x8B then 0xBE
           else 0)
        [].

(** ** More of the register model *)

Definition MeasurementRepeatRate_enumerators : list MeasurementRepeatRate :=
  [REPEAT_RATE_50MS; REPEAT_RATE_100MS; REPEAT_RATE_200MS;
   REPEAT_RATE_500MS; REPEAT_RATE_1000MS; REPEAT_RATE_2000MS].

(** The value a bit-field of width 3 keeps of what is stored into it. *)
Definition truncate3 (v : Z) : Z := Z.land v 7.

(** The value fits a bit-field of width 3. *)
Definition fits3 (v : Z) : Prop := 0 <= v < 8.

(** The field records after a store into the union: the fields wider than
    one bit keep their three low bits. *)
Definition ControlRegister_stored (f : ControlRegister.fields)
  : ControlRegister.fields :=
  ControlRegister.mk (ControlRegister.active_mode f) (ControlRegister.sw_reset f)
    (truncate3 (ControlRegister.gain f)) (truncate3 (ControlRegister.reserved f)).

Definition MeasurementRateRegister_stored (f : MeasurementRateRegister.fields)
  : MeasurementRateRegister.fields :=
  MeasurementRateRegister.mk
    (truncate3 (MeasurementRateRegister.measurement_repeat_rate f))
    (truncate3 (MeasurementRateRegister.integration_time f))
    (MeasurementRateRegister.reserved_6 f) (MeasurementRateRegister.reserved_7 f).

Definition StatusRegister_stored (f : StatusRegister.fields)
  : StatusRegister.fields :=
  StatusRegister.mk (StatusRegister.reserved_0 f) (StatusRegister.reserved_1 f)
    (StatusRegister.new_data f) (StatusRegister.reserved_3 f)
    (truncate3 (StatusRegister.gain f)) (StatusRegister.data_invalid f).

(** Field by field comparison of two views of a register. *)
Definition ControlRegister_eqb (f f' : ControlRegister.fields) : bool :=
  Bool.eqb (ControlRegister.active_mode f) (ControlRegister.active_mode f')
  && Bool.eqb (ControlRegister.sw_reset f) (ControlRegister.sw_reset f')
  && (ControlRegister.gain f =? ControlRegister.gain f')
  && (ControlRegister.reserved f =? ControlRegister.reserved f').

Definition MeasurementRateRegister_eqb (f f' : MeasurementRateRegister.fields)
  : bool :=
  (MeasurementRateRegister.measurement_repeat_rate f
   =? MeasurementRateRegister.measurement_repeat_rate f')
  && (MeasurementRateRegister.integration_time f
      =? MeasurementRateRegister.integration_time f')
  && Bool.eqb (MeasurementRateRegister.reserved_6 f)
              (MeasurementRateRegister.reserved_6 f')
  && Bool.eqb (MeasurementRateRegister.reserved_7 f)
              (MeasurementRateRegister.reserved_7 f').

Definition StatusRegister_eqb (f f' : StatusRegister.fields) : bool :=
  Bool.eqb (StatusRegister.reserved_0 f) (StatusRegister.reserved_0 f')
  && Bool.eqb (StatusRegister.reserved_1 f) (StatusRegister.reserved_1 f')
  && Bool.eqb (StatusRegister.new_data f) (StatusRegister.new_data f')
  && Bool.eqb (StatusRegister.reserved_3 f) (StatusRegister.reserved_3 f')
  && (StatusRegister.gain f =? StatusRegister.gain f')
  && Bool.eqb (StatusRegister.data_invalid f) (StatusRegister.data_invalid f').

(** The fields of a register that carry a meaning: every field but the
    reserved ones. *)
Definition ControlRegister_named (b : uint8_t) : bool * bool * Gain :=
  let f := ControlRegister.decode b in
  (ControlRegister.active_mode f, ControlRegister.sw_reset f, ControlRegister.gain f).

Definition MeasurementRateRegister_named (b : uint8_t)
  : MeasurementRepeatRate * IntegrationTime :=
  let f := MeasurementRateRegister.decode b in
  (MeasurementRateRegister.measurement_repeat_rate f,
   MeasurementRateRegister.integration_time f).

Definition StatusRegister_named (b : uint8_t) : bool * Gain * bool :=
  let f := StatusRegister.decode b in
  (StatusRegister.new_data f, StatusRegister.gain f, StatusRegister.data_invalid f).

(** The byte with its reserved bits cleared. *)
Definition clear_reserved (mask b : uint8_t) : uint8_t :=
  Z.land b (Z.lxor 0xFF mask).

(** ** Sequences of configuration calls *)

(** One call of a configuration setter, with its argument. *)
Inductive SetterCall : Set :=
| Call_set_gain (gain : Gain)
| Call_set_integration_time (time : IntegrationTime)
| Call_set_repeat_rate (rate : MeasurementRepeatRate)
| Call_set_glass_attenuation_factor (factor : float)
| Call_set_enable_automatic_mode (enable : bool)
| Call_set_ambient_light_sensor (sensor : SensorPtr)
| Call_set_full_spectrum_counts_sensor (sensor : SensorPtr)
| Call_set_infrared_counts_sensor (sensor : SensorPtr)
| Call_set_actual_gain_sensor (sensor : SensorPtr)
| Call_set_actual_integration_time_sensor (sensor : SensorPtr).

(** Making the call on a component. *)
Definition call (s : SetterCall) (this : LTR303Component) : LTR303Component :=
  match s with
  | Call_set_gain g => set_gain g this
  | Call_set_integration_time t => set_integration_time t this
  | Call_set_repeat_rate r => set_repeat_rate r this
  | Call_set_glass_attenuation_factor f => set_glass_attenuation_factor f this
  | Call_set_enable_automatic_mode e => set_enable_automatic_mode e this
  | Call_set_ambient_light_sensor p => set_ambient_light_sensor p this
  | Call_set_full_spectrum_counts_sensor p => set_full_spectrum_counts_sensor p this
  | Call_set_infrared_counts_sensor p => set_infrared_counts_sensor p this
  | Call_set_actual_gain_sensor p => set_actual_gain_sensor p this
  | Call_set_actual_integration_time_sensor p =>
      set_actual_integration_time_sensor p this
  end.

(** The member named on the left of the setter's assignment. *)
Definition target (s : SetterCall) : Member :=
  match s with
  | Call_set_gain _ => M_gain
  | Call_set_integration_time _ => M_integration_time
  | Call_set_repeat_rate _ => M_repeat_rate
  | Call_set_glass_attenuation_factor _ => M_glass_attenuation_factor
  | Call_set_enable_automatic_mode _ => M_automatic_mode_enabled
  | Call_set_ambient_light_sensor _ => M_ambient_light_sensor
  | Call_set_full_spectrum_counts_sensor _ => M_full_spectrum_counts_sensor
  | Call_set_infrared_counts_sensor _ => M_infrared_counts_sensor
  | Call_set_actual_gain_sensor _ => M_actual_gain_sensor
  | Call_set_actual_integration_time_sensor _ => M_actual_integration_time_sensor
  end.

(** The value on the right of the setter's assignment. *)
Definition written (s : SetterCall) : MemberValue :=
  match s with
  | Call_set_gain g => V_enum g
  | Call_set_integration_time t => V_enum t
  | Call_set_repeat_rate r => V_enum r
  | Call_set_glass_attenuation_factor f => V_float f
  | Call_set_enable_automatic_mode e => V_bool e
  | Call_set_ambient_light_sensor p => V_sensor p
  | Call_set_full_spectrum_counts_sensor p => V_sensor p
  | Call_set_infrared_counts_sensor p => V_sensor p
  | Call_set_actual_gain_sensor p => V_sensor p
  | Call_set_actual_integration_time_sensor p => V_sensor p
  end.

Definition Member_eqb (a b : Member) : bool :=
  match a, b with
  | M_state, M_state
  | M_readings, M_readings
  | M_automatic_mode_enabled, M_automatic_mode_enabled
  | M_gain, M_gain
  | M_integration_time, M_integration_time
  | M_repeat_rate, M_repeat_rate
  | M_glass_attenuation_factor, M_glass_attenuation_factor
  | M_infrared_counts_sensor, M_infrared_counts_sensor
  | M_full_spectrum_counts_sensor, M_full_spectrum_counts_sensor
  | M_ambient_light_sensor, M_ambient_light_sensor
  | M_actual_gain_sensor, M_actual_gain_sensor
  | M_actual_integration_time_sensor, M_actual_integration_time_sensor => true
  | _, _ => false
  end.

(** The calls made one after the other, the head of the list first. *)
Definition configure (calls : list SetterCall) (this : LTR303Component)
  : LTR303Component :=
  fold_left (fun c s => call s c) calls this.

(** What the last call that targets [m] wrote, if any call targets it. *)
Definition last_write (m : Member) (calls : list SetterCall) : option MemberValue :=
  fold_left (fun found s => if Member_eqb (target s) m then Some (written s) else found)
            calls None.

(** The members the configuration setters write: every member but the state
    of the state machine and the readings record. *)
Definition configuration_members : list Member :=
  [M_automatic_mode_enabled; M_gain; M_integration_time; M_repeat_rate;
   M_glass_attenuation_factor;
   M_infrared_counts_sensor; M_full_spectrum_counts_sensor;
   M_ambient_light_sensor; M_actual_gain_sensor;
   M_actual_integration_time_sensor].

(** Some call of the sequence targets the member. *)
Definition targeted (m : Member) (calls : list SetterCall) : bool :=
  existsb (fun s => Member_eqb (target s) m) calls.

(** ** An 'unknown' sentinel *)

(** What it would mean for the decoding of a 3-bit field to surface an
    'unknown' sentinel: one value of the enumeration type, no enumerator
    itself, is what every pattern that names no enumerator decodes to. *)
Definition decodes_undefined_to_sentinel
  (enumerators : list Z) (of_bits : Z -> Z) : Prop :=
  exists unknown,
    is_enumerator enumerators unknown = false
    /\ forall p, 0 <= p < 8 ->
       is_enumerator enumerators p = false -> of_bits p = unknown.

(** ** The gain of the status read *)


(** ** Photometric Converter *)

(** The arithmetic of [float]: IEEE-754 binary32, rounding to nearest even. *)
Definition float_add : float -> float -> float := SFadd float_prec float_emax.
Definition float_sub : float -> float -> float := SFsub float_prec float_emax.
Definition float_mul : float -> float -> float := SFmul float_prec float_emax.
Definition float_div : float -> float -> float := SFdiv float_prec float_emax.

(** The conversion of a 16-bit count to [float] (exact: a count has at most
    16 significant bits). *)
Definition float_of_count (n : uint16_t) : float :=
  binary_normalize float_prec float_emax n 0 false.

(** The datum is a number, not an infinity and not a NaN. *)
Definition is_finite_float (x : float) : bool :=
  match x with
  | S754_zero _ | S754_finite _ _ _ => true
  | S754_infinity _ | S754_nan => false
  end.

(** The largest finite [float], [FLT_MAX] = (2^24 - 1) * 2^104. *)
Definition FLT_MAX : float := S754_finite false 16777215 104.

(** The assignment [data.lux = l]. *)
Definition with_lux (l : float) (data : Readings) : Readings :=
  mkReadings (ch0 data) (ch1 data) (actual_gain data) (integration_time data) l.

(** Modelled from the spec: the clamp of the missing body of
    [apply_lux_calculation_]: a negative result of the piecewise formula
    becomes 0. *)
Definition clamp_negative (x : float) : float :=
  if SFltb x float_zero then float_zero else x.

(** Modelled from the spec: the selection of the coefficient set by the ratio
    bucket, in the missing body of [apply_lux_calculation_]: the table lists
    the buckets by their upper ratio, each with its coefficients (a, b); a
    ratio above every bucket contributes nothing. *)
Fixpoint select_coefficients
  (buckets : list (float * (float * float))) (ratio : float) : float * float :=
  match buckets with
  | [] => (float_zero, float_zero)
  | (upper, coefficients) :: rest =>
      if SFltb ratio upper then coefficients else select_coefficients rest ratio
  end.

Section PhotometricConverter.

(** The constants of the missing body: the documented saturation ratio, the
    table of ratio buckets with their coefficients, and the two tables of
    multipliers (of which the specification names samples only: GAIN_1 -> 1,
    GAIN_96 -> 96, 50 ms -> 0.5, 400 ms -> 4). *)
Variable saturation_ratio : float.
Variable ratio_buckets : list (float * (float * float)).
Variable gain_multiplier : Gain -> float.
Variable time_multiplier : IntegrationTime -> float.

(** Modelled from the spec: the channel ratio ch1/(ch0+ch1) of the missing
    body of [apply_lux_calculation_]. *)
Definition channel_ratio (data : Readings) : float :=
  float_div (float_of_count (ch1 data))
            (float_add (float_of_count (ch0 data)) (float_of_count (ch1 data))).

(** Modelled from the spec: step 2 of the missing body of
    [apply_lux_calculation_]; a count normalized by the gain multiplier and by
    the integration-time multiplier. *)
Definition normalized (data : Readings) (count : uint16_t) : float :=
  float_div (float_div (float_of_count count) (gain_multiplier (actual_gain data)))
            (time_multiplier (integration_time data)).

(** Modelled from the spec: step 3 of the missing body of
    [apply_lux_calculation_]; coefficient_a * ch0_normalized -
    coefficient_b * ch1_normalized, with the coefficients of the ratio's
    bucket. *)
Definition piecewise (data : Readings) : float :=
  let (a, b) := select_coefficients ratio_buckets (channel_ratio data) in
  float_sub (float_mul a (normalized data (ch0 data)))
            (float_mul b (normalized data (ch1 data))).

(** Modelled from the spec: the body of [apply_lux_calculation_] (declared in
    the header, defined outside it).  1. If ch0 == 0 and ch1 == 0, or if the
    channel ratio exceeds the saturation ratio, the result is 0.  2. The
    counts are normalized.  3. The piecewise formula of the ratio's bucket is
    applied, a negative result being clamped to 0.  4. The result is
    multiplied by the glass attenuation factor.  The result is left in the
    [lux] member of the record the call was given. *)
Definition apply_lux_calculation_ (this : LTR303Component) (data : Readings)
  : Readings :=
  if (ch0 data =? 0) && (ch1 data =? 0) then with_lux float_zero data
  else if SFltb saturation_ratio (channel_ratio data) then with_lux float_zero data
  else with_lux (float_mul (clamp_negative (piecewise data))
                           (glass_attenuation_factor_ this)) data.

End PhotometricConverter.

(** An instance of the constants, for the examples: the multipliers are the
    nominal gain and the integration time over 100 ms (1 for a value that is
    no enumerator), the saturation ratio is 1, and one bucket, open to
    every ratio, passes the normalized CH0 count through (a = 1, b = 0). *)
Definition example_gain_multiplier (g : Gain) : float :=
  float_of_count
    (if g =? GAIN_2 then 2 else if g =? GAIN_4 then 4 else if g =? GAIN_8 then 8
     else if g =? GAIN_48 then 48 else if g =? GAIN_96 then 96 else 1).

Definition example_time_multiplier (t : IntegrationTime) : float :=
  float_div
    (float_of_count
       (if t =? INTEGRATION_TIME_50MS then 50
        else if t =? INTEGRATION_TIME_200MS then 200
        else if t =? INTEGRATION_TIME_400MS then 400
        else if t =? INTEGRATION_TIME_150MS then 150
        else if t =? INTEGRATION_TIME_250MS then 250
        else if t =? INTEGRATION_TIME_300MS then 300
        else if t =? INTEGRATION_TIME_350MS then 350
        else 100))
    (float_of_count 100).

Definition example_ratio_buckets : list (float * (float * float)) :=
  [(FLT_MAX, (float_one, float_zero))].

Definition example_lux (this : LTR303Component) (data : Readings) : Readings :=
  apply_lux_calculation_ float_one example_ratio_buckets
    example_gain_multiplier example_time_multiplier this data.

(** A configuration and a sample for the examples: the attenuation factor
    FLT_MAX, and the counts ch0 = 2, ch1 = 0 taken at GAIN_1 over 100 ms. *)
Definition overflow_component : LTR303Component :=
  set_glass_attenuation_factor FLT_MAX LTR303Component_init.

Definition overflow_sample : Readings :=
  mkReadings 2 0 GAIN_1 INTEGRATION_TIME_100MS float_zero.

(** * Properties *)

(** ** Bytes and three-bit patterns *)

Lemma all_bytes_complete (b : Z) : 0 <= b < 256 -> In b all_bytes.
Proof.
  intros Hb. unfold all_bytes.
  replace b with (Z.of_nat (Z.to_nat b)) by lia.
  apply in_map, in_seq. lia.
Qed.

(** A property checked on each of the 256 bytes holds of every byte. *)
Lemma forall_bytes (P : Z -> bool) :
  forallb P all_bytes = true -> forall b, 0 <= b < 256 -> P b = true.
Proof.
  intros Hall b Hb. rewrite forallb_forall in Hall.
  apply Hall, all_bytes_complete, Hb.
Qed.

Lemma land7_range (v : Z) : 0 <= Z.land v 7 < 8.
Proof.
  change 7 with (Z.ones 3). rewrite Z.land_ones by lia.
  apply Z.mod_pos_bound. reflexivity.
Qed.


Lemma bits3_cases (p : Z) : 0 <= p < 8 -> In p all_bits3.
Proof.
  intros Hp. unfold all_bits3. simpl.
  assert (p = 0 \/ p = 1 \/ p = 2 \/ p = 3 \/ p = 4 \/ p = 5 \/ p = 6 \/ p = 7)
    as Hc by lia.
  intuition auto.
Qed.

(** A property checked on each of the 8 patterns holds of every pattern. *)
Lemma forall_bits3 (P : Z -> bool) :
  forallb P all_bits3 = true -> forall p, 0 <= p < 8 -> P p = true.
Proof.
  intros Hall p Hp. rewrite forallb_forall in Hall.
  apply Hall, bits3_cases, Hp.
Qed.

(** Truncation to three bits is idempotent, so a field only sees the three
    low bits of what is stored into it. *)
Lemma land7_idem (v : Z) : Z.land (Z.land v 7) 7 = Z.land v 7.
Proof. rewrite <- Z.land_assoc. reflexivity. Qed.

(** ** The model at work *)

Example decode_control_0x1D :
  ControlRegister.decode 0x1D = ControlRegister.mk true false GAIN_96 0.
Proof. reflexivity. Qed.

Example encode_meas_rate_200ms_500ms :
  MeasurementRateRegister.encode
    (MeasurementRateRegister.mk REPEAT_RATE_500MS INTEGRATION_TIME_200MS false false)
  = 0x13.
Proof. reflexivity. Qed.

Example decode_status_0xF4 :
  StatusRegister.decode 0xF4
  = StatusRegister.mk false false true false GAIN_96 true.
Proof. reflexivity. Qed.

Example poll_example_bus :
  fst (is_data_ready_ Readings_init example_bus)
  = (DATA_OK, mkReadings 0 0 GAIN_48 INTEGRATION_TIME_100MS float_zero).
Proof. reflexivity. Qed.

Example read_example_bus :
  fst (read_sensor_data_ Readings_init example_bus)
  = mkReadings 0xBEEF 0x1234 GAIN_1 INTEGRATION_TIME_100MS float_zero.
Proof. reflexivity. Qed.

Example reset_example_bus :
  trace (snd (configure_reset_and_activate_
                (set_gain GAIN_8 LTR303Component_init) example_bus))
  = [RegWrite 0x80 0x02; SettleDelay; RegWrite 0x80 0x0D].
Proof. reflexivity. Qed.

Example ladder_steps :
  step_up gain_ladder GAIN_8 = GAIN_48
  /\ step_up gain_ladder GAIN_96 = GAIN_96
  /\ step_down gain_ladder GAIN_48 = GAIN_8
  /\ step_down time_ladder INTEGRATION_TIME_100MS = INTEGRATION_TIME_50MS
  /\ step_up time_ladder INTEGRATION_TIME_350MS = INTEGRATION_TIME_400MS
  /\ step_up gain_ladder 4 = 4.
Proof. repeat split. Qed.

Example dim_sample_raises_gain :
  are_adjustments_required_ 100 60000 LTR303Component_init
    (mkReadings 12 3 GAIN_8 INTEGRATION_TIME_100MS float_zero)
  = (true, mkReadings 12 3 GAIN_48 INTEGRATION_TIME_100MS float_zero).
Proof. reflexivity. Qed.

(** ** Round trip of the register unions (C1) *)

Lemma roundtrip_all_bytes : forallb roundtrip_ok all_bytes = true.
Proof. vm_compute. reflexivity. Qed.

(** C1. For every 8-bit register byte, reading the fields of a
    ControlRegister, MeasurementRateRegister or StatusRegister from it and
    storing them back yields the original byte: exactly, hence in particular
    on every bit outside the reserved ones (ControlRegister bits 5-7,
    MeasurementRateRegister bits 6-7, StatusRegister bits 0, 1 and 3). *)
Theorem register_roundtrip (raw : uint8_t) (Hraw : 0 <= raw < 256) :
  ControlRegister.encode (ControlRegister.decode raw) = raw
  /\ MeasurementRateRegister.encode (MeasurementRateRegister.decode raw) = raw
  /\ StatusRegister.encode (StatusRegister.decode raw) = raw
  /\ agree_outside ControlRegister.reserved_mask
       (ControlRegister.encode (ControlRegister.decode raw)) raw
  /\ agree_outside MeasurementRateRegister.reserved_mask
       (MeasurementRateRegister.encode (MeasurementRateRegister.decode raw)) raw
  /\ agree_outside StatusRegister.reserved_mask
       (StatusRegister.encode (StatusRegister.decode raw)) raw.
Proof.
  pose proof (forall_bytes roundtrip_ok roundtrip_all_bytes raw Hraw) as Hok.
  unfold roundtrip_ok in Hok.
  apply andb_prop in Hok as [Hok Hs]. apply andb_prop in Hok as [Hc Hm].
  apply Z.eqb_eq in Hc, Hm, Hs.
  repeat split; try assumption.
  - intros i _ _. rewrite Hc. reflexivity.
  - intros i _ _. rewrite Hm. reflexivity.
  - intros i _ _. rewrite Hs. reflexivity.
Qed.

Lemma register_roundtrip_witness :
  ControlRegister.encode (ControlRegister.decode 0x9D) = 0x9D
  /\ MeasurementRateRegister.encode (MeasurementRateRegister.decode 0x9D) = 0x9D
  /\ StatusRegister.encode (StatusRegister.decode 0x9D) = 0x9D.
Proof.
  assert (0 <= 0x9D < 256) as H by lia.
  destruct (register_roundtrip 0x9D H) as (Hc & Hm & Hs & _).
  split; [exact Hc | split; [exact Hm | exact Hs]].
Defined.

(** ** The enumerations on the wire (C2) *)

Lemma Gain_enumerators_cases (g : Gain) :
  In g Gain_enumerators ->
  g = GAIN_1 \/ g = GAIN_2 \/ g = GAIN_4 \/ g = GAIN_8 \/ g = GAIN_48 \/ g = GAIN_96.
Proof. simpl. intuition auto. Qed.

Lemma Gain_enumerators_bits3 (g : Gain) : In g Gain_enumerators -> 0 <= g < 8.
Proof.
  intros Hg. apply Gain_enumerators_cases in Hg.
  unfold GAIN_1, GAIN_2, GAIN_4, GAIN_8, GAIN_48, GAIN_96 in Hg. lia.
Qed.

Lemma IntegrationTime_enumerators_bits3 (t : IntegrationTime) :
  In t IntegrationTime_enumerators -> 0 <= t < 8.
Proof.
  simpl.
  unfold INTEGRATION_TIME_100MS, INTEGRATION_TIME_50MS, INTEGRATION_TIME_200MS,
    INTEGRATION_TIME_400MS, INTEGRATION_TIME_150MS, INTEGRATION_TIME_250MS,
    INTEGRATION_TIME_300MS, INTEGRATION_TIME_350MS.
  lia.
Qed.

Lemma land7_bits3 (p : Z) : 0 <= p < 8 -> Z.land p 7 = p.
Proof.
  intros Hp. change 7 with (Z.ones 3). rewrite Z.land_ones by lia.
  apply Z.mod_small. lia.
Qed.

(** The claim as written fails: no 'unknown' sentinel is surfaced.  The two
    patterns that name no Gain enumerator decode to two different values,
    their own (4 and 5), so no single value stands for them. *)
Lemma gain_has_no_unknown_sentinel :
  ~ decodes_undefined_to_sentinel Gain_enumerators Gain_of_bits.
Proof.
  intros (unknown & _ & Hall).
  assert (Gain_of_bits 4 = unknown) as H4 by (apply Hall; [lia | reflexivity]).
  assert (Gain_of_bits 5 = unknown) as H5 by (apply Hall; [lia | reflexivity]).
  rewrite <- H5 in H4. vm_compute in H4. discriminate H4.
Qed.

(** C2 (amended). For every 3-bit wire pattern [p], decoding into a Gain or
    an IntegrationTime value is total and reversible, on the defined
    enumerators and on every other pattern alike: the decoded value is the
    pattern itself and stores back as [p], and every defined enumerator [g],
    [t] stores as three bits that read back as itself.  Every pattern names
    an IntegrationTime enumerator; the patterns that name no Gain enumerator
    are exactly 4 and 5, and such a pattern decodes, without a sentinel, to
    its own raw value: a pattern decodes to a defined enumerator only when it
    is that enumerator's own pattern, and two patterns never decode to the
    same value. *)
Theorem enum_wire_total_reversible
  (p : Z) (g : Gain) (t : IntegrationTime)
  (Hp : 0 <= p < 8)
  (Hg : In g Gain_enumerators) (Ht : In t IntegrationTime_enumerators) :
  (Gain_of_bits p = p /\ IntegrationTime_of_bits p = p)
  /\ Gain_to_bits (Gain_of_bits p) = p
  /\ IntegrationTime_to_bits (IntegrationTime_of_bits p) = p
  /\ (0 <= Gain_to_bits g < 8 /\ Gain_of_bits (Gain_to_bits g) = g)
  /\ (0 <= IntegrationTime_to_bits t < 8
      /\ IntegrationTime_of_bits (IntegrationTime_to_bits t) = t)
  /\ is_enumerator IntegrationTime_enumerators (IntegrationTime_of_bits p) = true
  /\ (is_enumerator Gain_enumerators (Gain_of_bits p) = false <-> p = 4 \/ p = 5)
  /\ (Gain_of_bits p = g <-> p = Gain_to_bits g)
  /\ (forall q, 0 <= q < 8 -> Gain_of_bits p = Gain_of_bits q -> p = q)
  /\ ControlRegister.gain (ControlRegister.decode (Z.shiftl p 2)) = Gain_of_bits p
  /\ StatusRegister.gain (StatusRegister.decode (Z.shiftl p 4)) = Gain_of_bits p
  /\ MeasurementRateRegister.integration_time
       (MeasurementRateRegister.decode (Z.shiftl p 3)) = IntegrationTime_of_bits p.
Proof.
  pose proof (Gain_enumerators_bits3 g Hg) as Hg8.
  pose proof (IntegrationTime_enumerators_bits3 t Ht) as Ht8.
  unfold Gain_to_bits, Gain_of_bits, IntegrationTime_to_bits, IntegrationTime_of_bits.
  rewrite !land7_idem, (land7_bits3 p Hp), (land7_bits3 g Hg8), (land7_bits3 t Ht8).
  repeat match goal with |- _ /\ _ => split end; try reflexivity; try lia.
  - apply (forall_bits3
             (fun p => is_enumerator IntegrationTime_enumerators p)); trivial.
  - split; [intros Hnone | intros [-> | ->]; reflexivity].
    pose proof (forall_bits3
      (fun p => is_enumerator Gain_enumerators p || (p =? 4) || (p =? 5))
      eq_refl p Hp) as Hall.
    cbv beta in Hall. rewrite Hnone in Hall. simpl in Hall. lia.
  - intros q Hq. rewrite (land7_bits3 q Hq). trivial.
  - apply Z.eqb_eq. apply (forall_bits3
      (fun p => ControlRegister.gain (ControlRegister.decode (Z.shiftl p 2)) =? p)
      eq_refl p Hp).
  - apply Z.eqb_eq. apply (forall_bits3
      (fun p => StatusRegister.gain (StatusRegister.decode (Z.shiftl p 4)) =? p)
      eq_refl p Hp).
  - apply Z.eqb_eq. apply (forall_bits3
      (fun p => MeasurementRateRegister.integration_time
                  (MeasurementRateRegister.decode (Z.shiftl p 3)) =? p)
      eq_refl p Hp).
Qed.

Lemma enum_wire_total_reversible_witness :
  Gain_of_bits 5 = 5
  /\ Gain_to_bits (Gain_of_bits 5) = 5
  /\ Gain_of_bits (Gain_to_bits GAIN_48) = GAIN_48
  /\ Gain_of_bits 5 <> GAIN_48.
Proof.
  assert (0 <= 5 < 8) as Hp by lia.
  assert (In GAIN_48 Gain_enumerators) as Hg by (simpl; tauto).
  assert (In INTEGRATION_TIME_350MS IntegrationTime_enumerators) as Ht
    by (simpl; tauto).
  destruct (enum_wire_total_reversible 5 GAIN_48 INTEGRATION_TIME_350MS Hp Hg Ht)
    as ((H0 & _) & H1 & _ & (_ & H3) & _ & _ & _ & H7 & _).
  split; [exact H0 | split; [exact H1 | split; [exact H3 |]]].
  intros Halias. apply H7 in Halias. vm_compute in Halias. discriminate Halias.
Defined.

(** ** Layout of the control register (C4) *)

Lemma control_layout_all :
  forallb (fun a => forallb (fun s => forallb (fun g => forallb (fun r =>
    control_layout_ok a s g r) all_bits3) all_bits3) [true; false]) [true; false]
  = true.
Proof. vm_compute. reflexivity. Qed.

Lemma bool_cases (b : bool) : In b [true; false].
Proof. destruct b; simpl; auto. Qed.

Lemma control_layout_bits3 (a s : bool) (g r : Z) :
  0 <= g < 8 -> 0 <= r < 8 -> control_layout_ok a s g r = true.
Proof.
  intros Hg Hr. pose proof control_layout_all as Hall.
  rewrite forallb_forall in Hall. specialize (Hall a (bool_cases a)).
  rewrite forallb_forall in Hall. specialize (Hall s (bool_cases s)).
  rewrite forallb_forall in Hall. specialize (Hall g (bits3_cases g Hg)).
  rewrite forallb_forall in Hall. exact (Hall r (bits3_cases r Hr)).
Qed.

(** The encoding sees only the three low bits of [gain] and [reserved]. *)
Lemma control_encode_truncates (f : ControlRegister.fields) :
  ControlRegister.encode f =
  ControlRegister.encode
    (ControlRegister.mk (ControlRegister.active_mode f) (ControlRegister.sw_reset f)
       (Z.land (ControlRegister.gain f) 7) (Z.land (ControlRegister.reserved f) 7)).
Proof.
  destruct f as [a s g r]. unfold ControlRegister.encode, put_bits3, Gain_to_bits.
  simpl. rewrite !land7_idem. reflexivity.
Qed.

(** The claim as written fails on a record whose reserved field is not zero:
    storing the fields [{false, false, GAIN_1, 7}] gives the byte 0xE0. *)
Lemma control_reserved_not_zeroed :
  ~ reserved_written_zero (ControlRegister.mk false false GAIN_1 7).
Proof. unfold reserved_written_zero. vm_compute. discriminate. Qed.

(** C4 (amended). The layout of ControlRegister places active_mode at bit 0,
    sw_reset at bit 1, the 3-bit gain field at bits 2-4 and the reserved field
    at bits 5-7: for every field record, the encoded byte has exactly those
    fields in bits 0-4 and the record's reserved field in bits 5-7.  The
    reserved bits are written as zero exactly when the reserved field of the
    record is zero, as it is in a byte built from a zeroed union by assigning
    active_mode, sw_reset and gain. *)
Theorem control_register_layout
  (f : ControlRegister.fields) (a s : bool) (g : Gain) :
  let b := ControlRegister.encode f in
  get_bit b 0 = ControlRegister.active_mode f
  /\ get_bit b 1 = ControlRegister.sw_reset f
  /\ get_bits3 b 2 = Gain_to_bits (ControlRegister.gain f)
  /\ get_bits3 b 5 = Z.land (ControlRegister.reserved f) 7
  /\ 0 <= b < 256
  /\ b = Z.b2z (ControlRegister.active_mode f)
         + 2 * Z.b2z (ControlRegister.sw_reset f)
         + 4 * Gain_to_bits (ControlRegister.gain f)
         + 32 * Z.land (ControlRegister.reserved f) 7
  /\ (reserved_written_zero f <-> Z.land (ControlRegister.reserved f) 7 = 0)
  /\ Z.land (control_from_zero a s g) ControlRegister.reserved_mask = 0
  /\ ControlRegister.decode (control_from_zero a s g)
     = ControlRegister.mk a s (Gain_to_bits g) 0.
Proof.
  intros b. subst b. unfold reserved_written_zero.
  rewrite (control_encode_truncates f).
  pose proof (control_layout_bits3
    (ControlRegister.active_mode f) (ControlRegister.sw_reset f)
    (Z.land (ControlRegister.gain f) 7) (Z.land (ControlRegister.reserved f) 7)
    (land7_range _) (land7_range _)) as Hok.
  unfold control_layout_ok, is_uint8 in Hok. cbv zeta in Hok.
  repeat (apply andb_prop in Hok; destruct Hok as [Hok ?]).
  repeat match goal with
  | H : Bool.eqb _ _ = true |- _ => apply Bool.eqb_prop in H
  | H : (_ =? _) = true |- _ => apply Z.eqb_eq in H
  | H : (_ && _) = true |- _ =>
      let Hlo := fresh "Hlo" in let Hhi := fresh "Hhi" in
      apply andb_prop in H; destruct H as [Hlo Hhi];
      apply Z.leb_le in Hlo; apply Z.ltb_lt in Hhi
  end.
  unfold Gain_to_bits.
  repeat match goal with |- _ /\ _ => split end; try assumption.
  - match goal with H : (_ =? 0) = (_ =? 0) |- _ => rename H into Hz end.
    split; intros Hzero.
    + apply Z.eqb_eq. rewrite <- Hz. apply Z.eqb_eq. exact Hzero.
    + apply Z.eqb_eq. rewrite Hz. apply Z.eqb_eq. exact Hzero.
  - pose proof (land7_range g) as Hg.
    unfold control_from_zero, ControlRegister.set_gain.
    rewrite control_encode_truncates. simpl ControlRegister.gain.
    apply Z.eqb_eq.
    apply (forall_bits3 (fun g' =>
      Z.land (ControlRegister.encode
        (ControlRegister.mk
           (ControlRegister.active_mode (ControlRegister.decode
              (ControlRegister.set_sw_reset s (ControlRegister.set_active_mode a 0))))
           (ControlRegister.sw_reset (ControlRegister.decode
              (ControlRegister.set_sw_reset s (ControlRegister.set_active_mode a 0))))
           g'
           (Z.land (ControlRegister.reserved (ControlRegister.decode
              (ControlRegister.set_sw_reset s (ControlRegister.set_active_mode a 0)))) 7)))
        ControlRegister.reserved_mask =? 0)); [| exact Hg].
    destruct a, s; vm_compute; reflexivity.
  - pose proof (land7_range g) as Hg.
    unfold control_from_zero, ControlRegister.set_gain.
    rewrite control_encode_truncates. simpl ControlRegister.gain.
    simpl ControlRegister.active_mode. simpl ControlRegister.sw_reset.
    simpl ControlRegister.reserved.
    generalize dependent (Z.land g 7). intros g' Hg'.
    apply bits3_cases in Hg'. simpl in Hg'.
    destruct a, s;
      repeat (destruct Hg' as [<- | Hg']; [vm_compute; reflexivity |]);
      contradiction.
Qed.

(** ** The freshly constructed component (C9) *)

(** C9. A freshly constructed LTR303Component, before any setter or framework
    call, is in state NOT_INITIALIZED with automatic mode enabled, gain
    GAIN_1, integration time 100 ms, repeat rate 500 ms, glass attenuation
    factor 1.0, all five sink pointers null, and a readings record equal to
    {ch0=0, ch1=0, actual_gain=GAIN_1, integration_time=100 ms, lux=0.0}. *)
Theorem fresh_component_defaults :
  state_ LTR303Component_init = NOT_INITIALIZED
  /\ automatic_mode_enabled_ LTR303Component_init = true
  /\ gain_ LTR303Component_init = GAIN_1
  /\ integration_time_ LTR303Component_init = INTEGRATION_TIME_100MS
  /\ repeat_rate_ LTR303Component_init = REPEAT_RATE_500MS
  /\ glass_attenuation_factor_ LTR303Component_init = float_one
  /\ float_is_integer float_one 1
  /\ infrared_counts_sensor_ LTR303Component_init = nullptr
  /\ full_spectrum_counts_sensor_ LTR303Component_init = nullptr
  /\ ambient_light_sensor_ LTR303Component_init = nullptr
  /\ actual_gain_sensor_ LTR303Component_init = nullptr
  /\ actual_integration_time_sensor_ LTR303Component_init = nullptr
  /\ ch0 (readings_ LTR303Component_init) = 0
  /\ ch1 (readings_ LTR303Component_init) = 0
  /\ actual_gain (readings_ LTR303Component_init) = GAIN_1
  /\ integration_time (readings_ LTR303Component_init) = INTEGRATION_TIME_100MS
  /\ lux (readings_ LTR303Component_init) = float_zero
  /\ float_is_integer float_zero 0
  /\ readings_ LTR303Component_init
     = mkReadings 0 0 GAIN_1 INTEGRATION_TIME_100MS float_zero.
Proof.
  repeat match goal with |- _ /\ _ => split end; try reflexivity.
  - (* 1.0 is 8388608 * 2^-23 *)
    split; [vm_compute; reflexivity | split; [vm_compute; discriminate | reflexivity]].
  - (* 0.0f *)
    split; reflexivity.
Qed.

(** The counts the header declares are the numbers of enumerators. *)
Lemma enumerator_counts :
  Z.of_nat (length Gain_enumerators) = GAINS_COUNT
  /\ Z.of_nat (length IntegrationTime_enumerators) = TIMES_COUNT.
Proof. split; reflexivity. Qed.

(** ** The configuration setters (C10) *)

(** The members are the whole state: two components that agree on every
    member are equal. *)
Lemma member_ext (a b : LTR303Component) :
  (forall m, member m a = member m b) -> a = b.
Proof.
  intros H. destruct a, b.
  pose proof (H M_state) as H1. pose proof (H M_readings) as H2.
  pose proof (H M_automatic_mode_enabled) as H3. pose proof (H M_gain) as H4.
  pose proof (H M_integration_time) as H5. pose proof (H M_repeat_rate) as H6.
  pose proof (H M_glass_attenuation_factor) as H7.
  pose proof (H M_infrared_counts_sensor) as H8.
  pose proof (H M_full_spectrum_counts_sensor) as H9.
  pose proof (H M_ambient_light_sensor) as H10.
  pose proof (H M_actual_gain_sensor) as H11.
  pose proof (H M_actual_integration_time_sensor) as H12.
  simpl in *. congruence.
Qed.

Lemma all_Members_complete (m : Member) : In m all_Members.
Proof. destruct m; simpl; tauto. Qed.

(** Discharges a frame statement of a setter: the written member by
    computation, the others by cases. *)
Ltac frame_of_setter :=
  split; [reflexivity | intros m' Hm'; destruct m'; try reflexivity; congruence].

(** C10. Each configuration setter (set_gain, set_integration_time,
    set_repeat_rate, set_glass_attenuation_factor, set_enable_automatic_mode
    and the five sink setters) writes exactly its one target member with the
    given value and leaves every other part of the component state (the
    state-machine state, the readings record, the other configuration members
    and the other sink pointers) unchanged. *)
Theorem setters_write_one_member
  (this : LTR303Component) (g : Gain) (t : IntegrationTime)
  (r : MeasurementRepeatRate) (factor : float) (enable : bool)
  (sensor : SensorPtr) :
  writes_only M_gain (V_enum g) this (set_gain g this)
  /\ writes_only M_integration_time (V_enum t) this (set_integration_time t this)
  /\ writes_only M_repeat_rate (V_enum r) this (set_repeat_rate r this)
  /\ writes_only M_glass_attenuation_factor (V_float factor) this
       (set_glass_attenuation_factor factor this)
  /\ writes_only M_automatic_mode_enabled (V_bool enable) this
       (set_enable_automatic_mode enable this)
  /\ writes_only M_ambient_light_sensor (V_sensor sensor) this
       (set_ambient_light_sensor sensor this)
  /\ writes_only M_full_spectrum_counts_sensor (V_sensor sensor) this
       (set_full_spectrum_counts_sensor sensor this)
  /\ writes_only M_infrared_counts_sensor (V_sensor sensor) this
       (set_infrared_counts_sensor sensor this)
  /\ writes_only M_actual_gain_sensor (V_sensor sensor) this
       (set_actual_gain_sensor sensor this)
  /\ writes_only M_actual_integration_time_sensor (V_sensor sensor) this
       (set_actual_integration_time_sensor sensor this).
Proof.
  unfold writes_only.
  repeat match goal with |- _ /\ (_ /\ _) => split end; frame_of_setter.
Qed.

(** ** Device Control on the bus *)

Lemma skipn_length_app {A : Type} (l r : list A) : skipn (length l) (l ++ r) = r.
Proof. induction l as [| x l IH]; simpl; [reflexivity | exact IH]. Qed.

(** The effects of a call are what it appended to the trace. *)
Lemma effects_of_appended {A : Type} (m : Dev A) (bus : Bus) (evs : list Effect) :
  trace (snd (m bus)) = trace bus ++ evs -> effects_of m bus = evs.
Proof. intros H. unfold effects_of. rewrite H. apply skipn_length_app. Qed.


(** *** Status read (C3) *)

(** What a call of [is_data_ready_] comes to, on a bus. *)
Lemma is_data_ready_run (bus : Bus) (data : Readings) :
  is_data_ready_ data bus =
  let status := answer bus ALS_STATUS in
  let bus' := mkBus (regs bus) (trace bus ++ [RegRead 0x8C]) in
  if get_bit status 2
  then if get_bit status 7
       then (BAD_DATA, stamp_actual_gain (Gain_of_bits (get_bits3 status 4)) data, bus')
       else (DATA_OK, stamp_actual_gain (Gain_of_bits (get_bits3 status 4)) data, bus')
  else (NO_DATA, data, bus').
Proof.
  cbv beta iota zeta delta
    [is_data_ready_ bind read_register ret answer CommandRegisters_value
     StatusRegister.decode StatusRegister.new_data StatusRegister.data_invalid
     StatusRegister.gain].
  destruct (get_bit _ 2); simpl negb; cbv iota.
  - destruct (get_bit _ 7); reflexivity.
  - reflexivity.
Qed.

Lemma Gain_of_bits3 (raw pos : Z) : Gain_of_bits (get_bits3 raw pos) = get_bits3 raw pos.
Proof. unfold Gain_of_bits, get_bits3. apply land7_idem. Qed.

(** C3. For every status byte the device answers with, is_data_ready_
    returns NO_DATA exactly when the new_data bit (bit 2) is 0, BAD_DATA
    exactly when new_data=1 and the data_invalid bit (bit 7) is 1, and DATA_OK
    exactly when new_data=1 and data_invalid=0; in the latter two cases the
    gain of status bits 4-6 is recorded as the actual gain of the sample, the
    rest of the record being kept.  The call is one read of the status
    register. *)
Theorem is_data_ready_cases (bus : Bus) (data : Readings) :
  let status := answer bus ALS_STATUS in
  let avail := fst (fst (is_data_ready_ data bus)) in
  let data' := snd (fst (is_data_ready_ data bus)) in
  (avail = NO_DATA <-> get_bit status 2 = false)
  /\ (avail = BAD_DATA <-> get_bit status 2 = true /\ get_bit status 7 = true)
  /\ (avail = DATA_OK <-> get_bit status 2 = true /\ get_bit status 7 = false)
  /\ (avail <> NO_DATA ->
      actual_gain data' = get_bits3 status 4
      /\ ch0 data' = ch0 data /\ ch1 data' = ch1 data
      /\ integration_time data' = integration_time data
      /\ lux data' = lux data)
  /\ effects_of (is_data_ready_ data) bus = [RegRead 0x8C].
Proof.
  intros status avail data'.
  assert (effects_of (is_data_ready_ data) bus = [RegRead 0x8C]) as Heff.
  { apply effects_of_appended. rewrite is_data_ready_run. cbv zeta.
    destruct (get_bit _ 2); [destruct (get_bit _ 7) |]; reflexivity. }
  subst avail data'. rewrite is_data_ready_run. cbv zeta. fold status.
  destruct (get_bit status 2) eqn:Hnew; [destruct (get_bit status 7) eqn:Hinv |];
    cbn [fst snd stamp_actual_gain actual_gain ch0 ch1 integration_time lux];
    rewrite ?Gain_of_bits3.
  - (* a sample, flagged invalid *)
    split; [| split; [| split; [| split]]].
    + split; discriminate.
    + split; [intros _; split; reflexivity | reflexivity].
    + split; [discriminate | intros [_ H]; discriminate H].
    + intros _. repeat split.
    + exact Heff.
  - (* a valid sample *)
    split; [| split; [| split; [| split]]].
    + split; discriminate.
    + split; [discriminate | intros [_ H]; discriminate H].
    + split; [intros _; split; reflexivity | reflexivity].
    + intros _. repeat split.
    + exact Heff.
  - (* no sample *)
    split; [| split; [| split; [| split]]].
    + split; reflexivity.
    + split; [discriminate | intros [H _]; discriminate H].
    + split; [discriminate | intros [H _]; discriminate H].
    + intros Hne. exfalso. apply Hne. reflexivity.
    + exact Heff.
Qed.

(** *** Channel reads (C6) *)



(** What a call of [read_sensor_data_] comes to, on a bus. *)
Lemma read_sensor_data_run (bus : Bus) (data : Readings) :
  read_sensor_data_ data bus =
  (mkReadings (combine_le (answer bus CH0_0) (answer bus CH0_1))
              (combine_le (answer bus CH1_0) (answer bus CH1_1))
              (actual_gain data) (integration_time data) (lux data),
   mkBus (regs bus)
         (trace bus ++ [RegRead 0x88; RegRead 0x89; RegRead 0x8A; RegRead 0x8B])).
Proof.
  cbv beta iota zeta delta
    [read_sensor_data_ bind read_register ret answer CommandRegisters_value
     regs trace].
  rewrite <- !app_assoc. reflexivity.
Qed.



(** *** Register addresses (C5) *)

(** Unfolds one Device Control operation down to the trace it leaves. *)
Ltac run_device_op :=
  cbv beta iota zeta delta
    [run_op identity_matches_ configure_reset_and_activate_
     configure_integration_time_ configure_gain_
     bind read_register write_register emit ret CommandRegisters_value
     regs trace fst snd];
  rewrite <- ?app_assoc; cbn [app].

Lemma identity_trace (p m : uint8_t) (bus : Bus) :
  trace (snd (identity_matches_ p m bus))
  = trace bus ++ [RegRead 0x86; RegRead 0x87].
Proof. run_device_op. reflexivity. Qed.

Lemma reset_and_activate_trace (this : LTR303Component) (bus : Bus) :
  trace (snd (configure_reset_and_activate_ this bus))
  = trace bus ++
    [RegWrite 0x80 (ControlRegister.set_sw_reset true 0);
     SettleDelay;
     RegWrite 0x80 (control_from_zero true false (gain_ this))].
Proof. run_device_op. reflexivity. Qed.

Lemma configure_integration_time_trace (t : IntegrationTime) (bus : Bus) :
  trace (snd (configure_integration_time_ t bus))
  = trace bus ++
    [RegRead 0x85;
     RegWrite 0x85
       (MeasurementRateRegister.set_integration_time t (answer bus MEAS_RATE))].
Proof. run_device_op. reflexivity. Qed.

Lemma configure_gain_trace (g : Gain) (bus : Bus) :
  trace (snd (configure_gain_ g bus))
  = trace bus ++
    [RegRead 0x80; RegWrite 0x80 (ControlRegister.set_gain g (answer bus ALS_CTRL))].
Proof. run_device_op. reflexivity. Qed.

Lemma is_data_ready_trace (data : Readings) (bus : Bus) :
  trace (snd (is_data_ready_ data bus)) = trace bus ++ [RegRead 0x8C].
Proof.
  rewrite is_data_ready_run. cbv zeta.
  destruct (get_bit _ 2); [destruct (get_bit _ 7) |]; reflexivity.
Qed.

(** Every operation appends to the trace, and appends accesses to the fixed
    addresses only. *)
Lemma run_op_trace (op : DeviceOp) (this : LTR303Component) (bus : Bus) :
  exists evs,
    trace (snd (run_op op this bus)) = trace bus ++ evs
    /\ forallb uses_fixed_address evs = true.
Proof.
  destruct op as [p m | | t | g | |].
  - exists [RegRead 0x86; RegRead 0x87]. split; [| reflexivity].
    rewrite <- (identity_trace p m bus). unfold run_op, bind, ret.
    destruct (identity_matches_ p m bus). reflexivity.
  - eexists. split.
    + rewrite <- (reset_and_activate_trace this bus). unfold run_op, bind, ret.
      destruct (configure_reset_and_activate_ this bus). reflexivity.
    + reflexivity.
  - eexists. split.
    + rewrite <- (configure_integration_time_trace t bus). unfold run_op, bind, ret.
      destruct (configure_integration_time_ t bus). reflexivity.
    + reflexivity.
  - eexists. split.
    + rewrite <- (configure_gain_trace g bus). unfold run_op, bind, ret.
      destruct (configure_gain_ g bus). reflexivity.
    + reflexivity.
  - exists [RegRead 0x8C]. split; [| reflexivity].
    rewrite <- (is_data_ready_trace (readings_ this) bus). unfold run_op, bind, ret.
    destruct (is_data_ready_ (readings_ this) bus). reflexivity.
  - exists [RegRead 0x88; RegRead 0x89; RegRead 0x8A; RegRead 0x8B].
    split; [| reflexivity].
    unfold run_op, bind, ret. rewrite read_sensor_data_run. reflexivity.
Qed.

Lemma run_ops_trace (ops : list DeviceOp) :
  forall (this : LTR303Component) (bus : Bus),
  exists evs,
    trace (snd (run_ops ops this bus)) = trace bus ++ evs
    /\ forallb uses_fixed_address evs = true.
Proof.
  induction ops as [| op rest IH]; intros this bus.
  - exists []. split; [simpl; rewrite app_nil_r; reflexivity | reflexivity].
  - destruct (run_op_trace op this bus) as (evs1 & Htrace1 & Hfixed1).
    simpl run_ops. unfold bind.
    destruct (run_op op this bus) as [this' bus'] eqn:Hrun.
    simpl in Htrace1.
    destruct (IH this' bus') as (evs2 & Htrace2 & Hfixed2).
    exists (evs1 ++ evs2). split.
    + rewrite Htrace2, Htrace1, app_assoc. reflexivity.
    + rewrite forallb_app, Hfixed1, Hfixed2. reflexivity.
Qed.

(** C5. Every bus access by Device Control uses one of the fixed register
    addresses: whatever operations run, in whatever order and on whatever
    device, each access is to control at 0x80, measurement rate at 0x85, part
    ID at 0x86, manufacturer ID at 0x87, the four channel-data bytes at 0x88
    through 0x8B, or status at 0x8C; and each operation addresses its own
    registers. *)
Theorem device_control_fixed_addresses
  (ops : list DeviceOp) (this : LTR303Component) (bus : Bus)
  (p m : uint8_t) (t : IntegrationTime) (g : Gain) (data : Readings) :
  forallb uses_fixed_address (effects_of (run_ops ops this) bus) = true
  /\ fixed_addresses = [0x80; 0x85; 0x86; 0x87; 0x88; 0x89; 0x8A; 0x8B; 0x8C]
  /\ addresses_of (effects_of (identity_matches_ p m) bus) = [0x86; 0x87]
  /\ addresses_of (effects_of (configure_reset_and_activate_ this) bus)
     = [0x80; 0x80]
  /\ addresses_of (effects_of (configure_integration_time_ t) bus) = [0x85; 0x85]
  /\ addresses_of (effects_of (configure_gain_ g) bus) = [0x80; 0x80]
  /\ addresses_of (effects_of (is_data_ready_ data) bus) = [0x8C]
  /\ addresses_of (effects_of (read_sensor_data_ data) bus)
     = [0x88; 0x89; 0x8A; 0x8B].
Proof.
  split; [| split; [reflexivity |]].
  - destruct (run_ops_trace ops this bus) as (evs & Htrace & Hfixed).
    rewrite (effects_of_appended _ _ _ Htrace). exact Hfixed.
  - rewrite (effects_of_appended _ _ _ (identity_trace p m bus)).
    rewrite (effects_of_appended _ _ _ (reset_and_activate_trace this bus)).
    rewrite (effects_of_appended _ _ _ (configure_integration_time_trace t bus)).
    rewrite (effects_of_appended _ _ _ (configure_gain_trace g bus)).
    rewrite (effects_of_appended _ _ _ (is_data_ready_trace data bus)).
    rewrite (effects_of_appended (read_sensor_data_ data) bus
               [RegRead 0x88; RegRead 0x89; RegRead 0x8A; RegRead 0x8B])
      by (rewrite read_sensor_data_run; reflexivity).
    repeat split.
Qed.

(** ** Adaptive Controller (C8) *)

(** A move along the ladders changes the gain or the integration time, never
    both, and reports a change exactly when it made one. *)
Lemma adjust_one_setting (gain_move time_move : Z -> Z) (data : Readings) :
  let r := adjust gain_move time_move data in
  (actual_gain (snd r) = actual_gain data
   \/ integration_time (snd r) = integration_time data)
  /\ ch0 (snd r) = ch0 data /\ ch1 (snd r) = ch1 data /\ lux (snd r) = lux data
  /\ (fst r = false -> snd r = data)
  /\ (fst r = true ->
      actual_gain (snd r) <> actual_gain data
      \/ integration_time (snd r) <> integration_time data).
Proof.
  unfold adjust.
  destruct (gain_move (actual_gain data) =? actual_gain data) eqn:Hg; simpl.
  - destruct (time_move (integration_time data) =? integration_time data) eqn:Ht;
      simpl.
    + repeat split; try discriminate; auto.
    + apply Z.eqb_neq in Ht. repeat split; try discriminate; auto.
  - apply Z.eqb_neq in Hg. repeat split; try discriminate; auto.
Qed.

(** No move is left when both settings sit at the end of their ladders. *)
Lemma adjust_exhausted (gain_move time_move : Z -> Z) (data : Readings) :
  gain_move (actual_gain data) = actual_gain data ->
  time_move (integration_time data) = integration_time data ->
  adjust gain_move time_move data = (false, data).
Proof.
  intros Hg Ht. unfold adjust. rewrite Hg, Ht, !Z.eqb_refl. reflexivity.
Qed.

(** With the thresholds in order, a saturated sample is not under-range. *)
Lemma saturated_not_under_range (low high : uint16_t) (data : Readings) :
  low <= high -> saturated high data = true -> under_range low data = false.
Proof.
  unfold saturated, under_range. intros Hth Hsat.
  apply orb_true_iff in Hsat. apply andb_false_iff.
  destruct Hsat as [H | H]; apply Z.leb_le in H; [left | right];
    apply Z.ltb_ge; lia.
Qed.

(** C8. For every readings record, a single call to
    are_adjustments_required_ changes at most one of the two settings gain and
    integration time (never both) and nothing else of the record; it returns
    false, leaving the record as it was, when the sample is under-range with
    the settings already at their maximum (GAIN_96, 400 ms) and when the
    sample is saturated with the settings already at their minimum (GAIN_1,
    50 ms). *)
Theorem adjustments_change_one_setting
  (LOW_INTENSITY_THRESHOLD HIGH_INTENSITY_THRESHOLD : uint16_t)
  (this : LTR303Component) (data : Readings)
  (Hthresholds : LOW_INTENSITY_THRESHOLD <= HIGH_INTENSITY_THRESHOLD) :
  let r := are_adjustments_required_
             LOW_INTENSITY_THRESHOLD HIGH_INTENSITY_THRESHOLD this data in
  (actual_gain (snd r) = actual_gain data
   \/ integration_time (snd r) = integration_time data)
  /\ ch0 (snd r) = ch0 data /\ ch1 (snd r) = ch1 data /\ lux (snd r) = lux data
  /\ (fst r = false -> snd r = data)
  /\ (under_range LOW_INTENSITY_THRESHOLD data = true ->
      actual_gain data = GAIN_96 ->
      integration_time data = INTEGRATION_TIME_400MS ->
      r = (false, data))
  /\ (saturated HIGH_INTENSITY_THRESHOLD data = true ->
      actual_gain data = GAIN_1 ->
      integration_time data = INTEGRATION_TIME_50MS ->
      r = (false, data))
  /\ (automatic_mode_enabled_ this = false -> r = (false, data)).
Proof.
  intros r. subst r. unfold are_adjustments_required_.
  destruct (automatic_mode_enabled_ this); simpl negb; cbv iota.
  2: { repeat split; auto. }
  destruct (under_range LOW_INTENSITY_THRESHOLD data) eqn:Hlow.
  - destruct (adjust_one_setting (step_up gain_ladder) (step_up time_ladder) data)
      as (Hone & Hch0 & Hch1 & Hlux & Hfalse & _).
    split; [exact Hone |]. split; [exact Hch0 |]. split; [exact Hch1 |].
    split; [exact Hlux |]. split; [exact Hfalse |].
    split; [| split].
    + intros _ Hg Ht. apply adjust_exhausted; [rewrite Hg | rewrite Ht]; reflexivity.
    + intros Hsat.
      rewrite (saturated_not_under_range _ _ data Hthresholds Hsat) in Hlow.
      discriminate Hlow.
    + discriminate.
  - destruct (saturated HIGH_INTENSITY_THRESHOLD data) eqn:Hhigh.
    + destruct (adjust_one_setting (step_down gain_ladder) (step_down time_ladder)
                  data) as (Hone & Hch0 & Hch1 & Hlux & Hfalse & _).
      split; [exact Hone |]. split; [exact Hch0 |]. split; [exact Hch1 |].
      split; [exact Hlux |]. split; [exact Hfalse |].
      split; [| split].
      * discriminate.
      * intros _ Hg Ht.
        apply adjust_exhausted; [rewrite Hg | rewrite Ht]; reflexivity.
      * discriminate.
    + repeat split; auto; discriminate.
Qed.

Lemma adjustments_change_one_setting_witness :
  are_adjustments_required_ 1000 60000 LTR303Component_init
    (mkReadings 0xFFFF 0xFFFF GAIN_1 INTEGRATION_TIME_50MS float_zero)
  = (false, mkReadings 0xFFFF 0xFFFF GAIN_1 INTEGRATION_TIME_50MS float_zero).
Proof.
  assert (1000 <= 60000) as Hth by lia.
  destruct (adjustments_change_one_setting 1000 60000 LTR303Component_init
              (mkReadings 0xFFFF 0xFFFF GAIN_1 INTEGRATION_TIME_50MS float_zero) Hth)
    as (_ & _ & _ & _ & _ & _ & Hsat & _).
  apply Hsat; reflexivity.
Defined.

(** * Further properties of the register model *)

(** ** Comparing and enumerating field records *)

Lemma ControlRegister_eqb_eq (f f' : ControlRegister.fields) :
  ControlRegister_eqb f f' = true -> f = f'.
Proof.
  destruct f as [a s g r], f' as [a' s' g' r']. unfold ControlRegister_eqb. simpl.
  intros H. repeat (apply andb_prop in H; destruct H as [H ?]).
  repeat match goal with
  | E : Bool.eqb _ _ = true |- _ => apply Bool.eqb_prop in E
  | E : (_ =? _) = true |- _ => apply Z.eqb_eq in E
  end.
  congruence.
Qed.

Lemma MeasurementRateRegister_eqb_eq (f f' : MeasurementRateRegister.fields) :
  MeasurementRateRegister_eqb f f' = true -> f = f'.
Proof.
  destruct f as [r t r6 r7], f' as [r' t' r6' r7'].
  unfold MeasurementRateRegister_eqb. simpl.
  intros H. repeat (apply andb_prop in H; destruct H as [H ?]).
  repeat match goal with
  | E : Bool.eqb _ _ = true |- _ => apply Bool.eqb_prop in E
  | E : (_ =? _) = true |- _ => apply Z.eqb_eq in E
  end.
  congruence.
Qed.

Lemma StatusRegister_eqb_eq (f f' : StatusRegister.fields) :
  StatusRegister_eqb f f' = true -> f = f'.
Proof.
  destruct f as [r0 r1 n r3 g d], f' as [r0' r1' n' r3' g' d'].
  unfold StatusRegister_eqb. simpl.
  intros H. repeat (apply andb_prop in H; destruct H as [H ?]).
  repeat match goal with
  | E : Bool.eqb _ _ = true |- _ => apply Bool.eqb_prop in E
  | E : (_ =? _) = true |- _ => apply Z.eqb_eq in E
  end.
  congruence.
Qed.

(** A property checked on each pattern holds of whatever a 3-bit field
    keeps. *)
Lemma forallb_bits3_elim (P : Z -> bool) :
  forallb P all_bits3 = true -> forall v, P (truncate3 v) = true.
Proof.
  intros H v. apply (forall_bits3 P H). apply land7_range.
Qed.

Lemma forallb_bool_elim (P : bool -> bool) :
  forallb P [true; false] = true -> forall v, P v = true.
Proof.
  intros H v. rewrite forallb_forall in H. apply H, bool_cases.
Qed.

Lemma truncate3_idem (v : Z) : truncate3 (truncate3 v) = truncate3 v.
Proof. apply land7_idem. Qed.

Lemma truncate3_fits (v : Z) : truncate3 v = v <-> fits3 v.
Proof.
  unfold truncate3, fits3. split.
  - intros <-. apply land7_range.
  - apply land7_bits3.
Qed.

(** ** Storing fields and reading them back *)

Lemma control_decode_encode (f : ControlRegister.fields) :
  ControlRegister.decode (ControlRegister.encode f) = ControlRegister_stored f.
Proof.
  rewrite control_encode_truncates. apply ControlRegister_eqb_eq.
  destruct f as [a s g r]. unfold ControlRegister_stored. simpl.
  fold (truncate3 g). fold (truncate3 r).
  revert r. apply (forallb_bits3_elim (fun r' =>
    ControlRegister_eqb
      (ControlRegister.decode (ControlRegister.encode
         (ControlRegister.mk a s (truncate3 g) r')))
      (ControlRegister.mk a s (truncate3 g) r'))).
  revert g. apply (forallb_bits3_elim (fun g' => forallb (fun r' =>
    ControlRegister_eqb
      (ControlRegister.decode (ControlRegister.encode
         (ControlRegister.mk a s g' r')))
      (ControlRegister.mk a s g' r')) all_bits3)).
  destruct a, s; vm_compute; reflexivity.
Qed.

Lemma meas_rate_encode_truncates (f : MeasurementRateRegister.fields) :
  MeasurementRateRegister.encode f
  = MeasurementRateRegister.encode (MeasurementRateRegister_stored f).
Proof.
  destruct f as [r t r6 r7].
  unfold MeasurementRateRegister.encode, MeasurementRateRegister_stored,
    put_bits3, IntegrationTime_to_bits, truncate3.
  simpl. rewrite !land7_idem. reflexivity.
Qed.

Lemma meas_rate_decode_encode (f : MeasurementRateRegister.fields) :
  MeasurementRateRegister.decode (MeasurementRateRegister.encode f)
  = MeasurementRateRegister_stored f.
Proof.
  rewrite meas_rate_encode_truncates. apply MeasurementRateRegister_eqb_eq.
  destruct f as [r t r6 r7]. unfold MeasurementRateRegister_stored. simpl.
  revert t. apply (forallb_bits3_elim (fun t' =>
    MeasurementRateRegister_eqb
      (MeasurementRateRegister.decode (MeasurementRateRegister.encode
         (MeasurementRateRegister.mk (truncate3 r) t' r6 r7)))
      (MeasurementRateRegister.mk (truncate3 r) t' r6 r7))).
  revert r. apply (forallb_bits3_elim (fun r' => forallb (fun t' =>
    MeasurementRateRegister_eqb
      (MeasurementRateRegister.decode (MeasurementRateRegister.encode
         (MeasurementRateRegister.mk r' t' r6 r7)))
      (MeasurementRateRegister.mk r' t' r6 r7)) all_bits3)).
  destruct r6, r7; vm_compute; reflexivity.
Qed.

Lemma status_encode_truncates (f : StatusRegister.fields) :
  StatusRegister.encode f = StatusRegister.encode (StatusRegister_stored f).
Proof.
  destruct f as [r0 r1 n r3 g d].
  unfold StatusRegister.encode, StatusRegister_stored, put_bits3, Gain_to_bits,
    truncate3.
  simpl. rewrite !land7_idem. reflexivity.
Qed.

Lemma status_decode_encode (f : StatusRegister.fields) :
  StatusRegister.decode (StatusRegister.encode f) = StatusRegister_stored f.
Proof.
  rewrite status_encode_truncates. apply StatusRegister_eqb_eq.
  destruct f as [r0 r1 n r3 g d]. unfold StatusRegister_stored. simpl.
  revert g. apply (forallb_bits3_elim (fun g' =>
    StatusRegister_eqb
      (StatusRegister.decode (StatusRegister.encode
         (StatusRegister.mk r0 r1 n r3 g' d)))
      (StatusRegister.mk r0 r1 n r3 g' d))).
  destruct r0, r1, n, r3, d; vm_compute; reflexivity.
Qed.

(** The encoded registers are bytes, whatever the fields hold. *)
Lemma control_encode_byte (f : ControlRegister.fields) :
  0 <= ControlRegister.encode f < 256.
Proof.
  rewrite control_encode_truncates.
  pose proof (control_layout_bits3
    (ControlRegister.active_mode f) (ControlRegister.sw_reset f)
    (Z.land (ControlRegister.gain f) 7) (Z.land (ControlRegister.reserved f) 7)
    (land7_range _) (land7_range _)) as Hok.
  unfold control_layout_ok in Hok. cbv zeta in Hok.
  repeat (apply andb_prop in Hok; destruct Hok as [Hok ?]).
  match goal with H : is_uint8 _ = true |- _ =>
    unfold is_uint8 in H; apply andb_prop in H; destruct H as [Hlo Hhi] end.
  apply Z.leb_le in Hlo. apply Z.ltb_lt in Hhi. split; assumption.
Qed.

Lemma is_uint8_range (v : Z) : is_uint8 v = true -> 0 <= v < 256.
Proof.
  unfold is_uint8. intros H. apply andb_prop in H. destruct H as [Hlo Hhi].
  apply Z.leb_le in Hlo. apply Z.ltb_lt in Hhi. split; assumption.
Qed.

Lemma meas_rate_encode_byte (f : MeasurementRateRegister.fields) :
  0 <= MeasurementRateRegister.encode f < 256.
Proof.
  rewrite meas_rate_encode_truncates. apply is_uint8_range.
  destruct f as [r t r6 r7]. unfold MeasurementRateRegister_stored. simpl.
  revert t. apply (forallb_bits3_elim (fun t' =>
    is_uint8 (MeasurementRateRegister.encode
                (MeasurementRateRegister.mk (truncate3 r) t' r6 r7)))).
  revert r. apply (forallb_bits3_elim (fun r' => forallb (fun t' =>
    is_uint8 (MeasurementRateRegister.encode
                (MeasurementRateRegister.mk r' t' r6 r7))) all_bits3)).
  destruct r6, r7; vm_compute; reflexivity.
Qed.

Lemma status_encode_byte (f : StatusRegister.fields) :
  0 <= StatusRegister.encode f < 256.
Proof.
  rewrite status_encode_truncates. apply is_uint8_range.
  destruct f as [r0 r1 n r3 g d]. unfold StatusRegister_stored. simpl.
  revert g. apply (forallb_bits3_elim (fun g' =>
    is_uint8 (StatusRegister.encode (StatusRegister.mk r0 r1 n r3 g' d)))).
  destruct r0, r1, n, r3, d; vm_compute; reflexivity.
Qed.

(** X1. Storing a record of fields into a register union and reading the
    fields back returns the record with its 3-bit fields cut to their three
    low bits, and the byte in between is always a byte; so the record comes
    back unchanged exactly when its 3-bit fields fit three bits.  This holds
    for ControlRegister, MeasurementRateRegister and StatusRegister. *)
Theorem fields_roundtrip
  (fc : ControlRegister.fields) (fm : MeasurementRateRegister.fields)
  (fs : StatusRegister.fields) :
  (ControlRegister.decode (ControlRegister.encode fc) = ControlRegister_stored fc
   /\ 0 <= ControlRegister.encode fc < 256
   /\ (ControlRegister.decode (ControlRegister.encode fc) = fc
       <-> fits3 (ControlRegister.gain fc) /\ fits3 (ControlRegister.reserved fc)))
  /\ (MeasurementRateRegister.decode (MeasurementRateRegister.encode fm)
      = MeasurementRateRegister_stored fm
      /\ 0 <= MeasurementRateRegister.encode fm < 256
      /\ (MeasurementRateRegister.decode (MeasurementRateRegister.encode fm) = fm
          <-> fits3 (MeasurementRateRegister.measurement_repeat_rate fm)
              /\ fits3 (MeasurementRateRegister.integration_time fm)))
  /\ (StatusRegister.decode (StatusRegister.encode fs) = StatusRegister_stored fs
      /\ 0 <= StatusRegister.encode fs < 256
      /\ (StatusRegister.decode (StatusRegister.encode fs) = fs
          <-> fits3 (StatusRegister.gain fs))).
Proof.
  split; [| split].
  - split; [apply control_decode_encode | split; [apply control_encode_byte |]].
    rewrite control_decode_encode. destruct fc as [a s g r].
    unfold ControlRegister_stored. simpl. split.
    + intros H. injection H as Hg Hr. split; apply truncate3_fits; assumption.
    + intros [Hg Hr]. apply truncate3_fits in Hg, Hr. rewrite Hg, Hr. reflexivity.
  - split; [apply meas_rate_decode_encode | split; [apply meas_rate_encode_byte |]].
    rewrite meas_rate_decode_encode. destruct fm as [r t r6 r7].
    unfold MeasurementRateRegister_stored. simpl. split.
    + intros H. injection H as Hr Ht. split; apply truncate3_fits; assumption.
    + intros [Hr Ht]. apply truncate3_fits in Hr, Ht. rewrite Hr, Ht. reflexivity.
  - split; [apply status_decode_encode | split; [apply status_encode_byte |]].
    rewrite status_decode_encode. destruct fs as [r0 r1 n r3 g d].
    unfold StatusRegister_stored. simpl. split.
    + intros H. injection H as Hg. apply truncate3_fits; assumption.
    + intros Hg. apply truncate3_fits in Hg. rewrite Hg. reflexivity.
Qed.

(** ** The reserved bits *)

Lemma control_encode_decode (b : uint8_t) :
  0 <= b < 256 -> ControlRegister.encode (ControlRegister.decode b) = b.
Proof.
  intros Hb. pose proof (forall_bytes roundtrip_ok roundtrip_all_bytes b Hb) as H.
  unfold roundtrip_ok in H. apply andb_prop in H as [H _].
  apply andb_prop in H as [H _]. apply Z.eqb_eq. exact H.
Qed.

Lemma meas_rate_encode_decode (b : uint8_t) :
  0 <= b < 256 ->
  MeasurementRateRegister.encode (MeasurementRateRegister.decode b) = b.
Proof.
  intros Hb. pose proof (forall_bytes roundtrip_ok roundtrip_all_bytes b Hb) as H.
  unfold roundtrip_ok in H. apply andb_prop in H as [H _].
  apply andb_prop in H as [_ H]. apply Z.eqb_eq. exact H.
Qed.

Lemma status_encode_decode (b : uint8_t) :
  0 <= b < 256 -> StatusRegister.encode (StatusRegister.decode b) = b.
Proof.
  intros Hb. pose proof (forall_bytes roundtrip_ok roundtrip_all_bytes b Hb) as H.
  unfold roundtrip_ok in H. apply andb_prop in H as [_ H].
  apply Z.eqb_eq. exact H.
Qed.

(** What a register holds once its reserved bits are cleared: the named
    fields, stored with zeroed reserved fields. *)
Lemma control_clear_reserved (b : uint8_t) :
  0 <= b < 256 ->
  clear_reserved ControlRegister.reserved_mask b
  = ControlRegister.encode
      (ControlRegister.mk (fst (fst (ControlRegister_named b)))
         (snd (fst (ControlRegister_named b))) (snd (ControlRegister_named b)) 0).
Proof.
  intros Hb. apply Z.eqb_eq.
  apply (forall_bytes (fun b =>
    clear_reserved ControlRegister.reserved_mask b
    =? ControlRegister.encode
         (ControlRegister.mk (fst (fst (ControlRegister_named b)))
            (snd (fst (ControlRegister_named b)))
            (snd (ControlRegister_named b)) 0))); [| exact Hb].
  vm_compute. reflexivity.
Qed.

Lemma meas_rate_clear_reserved (b : uint8_t) :
  0 <= b < 256 ->
  clear_reserved MeasurementRateRegister.reserved_mask b
  = MeasurementRateRegister.encode
      (MeasurementRateRegister.mk (fst (MeasurementRateRegister_named b))
         (snd (MeasurementRateRegister_named b)) false false).
Proof.
  intros Hb. apply Z.eqb_eq.
  apply (forall_bytes (fun b =>
    clear_reserved MeasurementRateRegister.reserved_mask b
    =? MeasurementRateRegister.encode
         (MeasurementRateRegister.mk (fst (MeasurementRateRegister_named b))
            (snd (MeasurementRateRegister_named b)) false false)));
    [| exact Hb].
  vm_compute. reflexivity.
Qed.

Lemma status_clear_reserved (b : uint8_t) :
  0 <= b < 256 ->
  clear_reserved StatusRegister.reserved_mask b
  = StatusRegister.encode
      (StatusRegister.mk false false (fst (fst (StatusRegister_named b))) false
         (snd (fst (StatusRegister_named b))) (snd (StatusRegister_named b))).
Proof.
  intros Hb. apply Z.eqb_eq.
  apply (forall_bytes (fun b =>
    clear_reserved StatusRegister.reserved_mask b
    =? StatusRegister.encode
         (StatusRegister.mk false false (fst (fst (StatusRegister_named b))) false
            (snd (fst (StatusRegister_named b))) (snd (StatusRegister_named b)))));
    [| exact Hb].
  vm_compute. reflexivity.
Qed.

(** The 3-bit fields read from a register fit three bits. *)
Lemma get_bits3_truncated (raw pos : Z) : truncate3 (get_bits3 raw pos) = get_bits3 raw pos.
Proof. unfold truncate3, get_bits3. apply land7_idem. Qed.

Lemma Gain_of_bits_truncated (p : Z) : truncate3 (Gain_of_bits p) = Gain_of_bits p.
Proof. unfold truncate3, Gain_of_bits. apply land7_idem. Qed.

Lemma IntegrationTime_of_bits_truncated (p : Z) :
  truncate3 (IntegrationTime_of_bits p) = IntegrationTime_of_bits p.
Proof. unfold truncate3, IntegrationTime_of_bits. apply land7_idem. Qed.

(** X2. The named fields of a register depend on the byte through its
    non-reserved bits only, and determine them: two bytes show the same
    active_mode, sw_reset and gain (control), the same repeat rate and
    integration time (measurement rate), the same new_data, gain and
    data_invalid (status) exactly when they agree outside the reserved bits
    (0xE0, 0xC0 and 0x0B). *)
Theorem named_fields_ignore_reserved (b b' : uint8_t)
  (Hb : 0 <= b < 256) (Hb' : 0 <= b' < 256) :
  (ControlRegister_named b = ControlRegister_named b'
   <-> clear_reserved ControlRegister.reserved_mask b
       = clear_reserved ControlRegister.reserved_mask b')
  /\ (MeasurementRateRegister_named b = MeasurementRateRegister_named b'
      <-> clear_reserved MeasurementRateRegister.reserved_mask b
          = clear_reserved MeasurementRateRegister.reserved_mask b')
  /\ (StatusRegister_named b = StatusRegister_named b'
      <-> clear_reserved StatusRegister.reserved_mask b
          = clear_reserved StatusRegister.reserved_mask b').
Proof.
  split; [| split].
  - rewrite (control_clear_reserved b Hb), (control_clear_reserved b' Hb'). split.
    + intros ->. reflexivity.
    + intros H. apply (f_equal ControlRegister.decode) in H.
      rewrite !control_decode_encode in H.
      unfold ControlRegister_stored, ControlRegister_named in *. simpl in H.
      rewrite !Gain_of_bits_truncated in H. simpl.
      injection H as Ha Hs Hg. congruence.
  - rewrite (meas_rate_clear_reserved b Hb), (meas_rate_clear_reserved b' Hb').
    split.
    + intros ->. reflexivity.
    + intros H. apply (f_equal MeasurementRateRegister.decode) in H.
      rewrite !meas_rate_decode_encode in H.
      unfold MeasurementRateRegister_stored, MeasurementRateRegister_named in *.
      simpl in H.
      rewrite !IntegrationTime_of_bits_truncated, !get_bits3_truncated in H. simpl.
      injection H as Hr Ht. congruence.
  - rewrite (status_clear_reserved b Hb), (status_clear_reserved b' Hb'). split.
    + intros ->. reflexivity.
    + intros H. apply (f_equal StatusRegister.decode) in H.
      rewrite !status_decode_encode in H.
      unfold StatusRegister_stored, StatusRegister_named in *. simpl in H.
      rewrite !Gain_of_bits_truncated in H. simpl.
      injection H as Hn Hg Hd. congruence.
Qed.

Lemma named_fields_ignore_reserved_witness :
  ControlRegister_named 0x0D = ControlRegister_named 0xED
  /\ StatusRegister_named 0x64 = StatusRegister_named 0x6F.
Proof.
  assert (0 <= 0x0D < 256) as H1 by lia. assert (0 <= 0xED < 256) as H2 by lia.
  assert (0 <= 0x64 < 256) as H3 by lia. assert (0 <= 0x6F < 256) as H4 by lia.
  split.
  - apply (proj1 (named_fields_ignore_reserved 0x0D 0xED H1 H2)). reflexivity.
  - apply (proj2 (proj2 (named_fields_ignore_reserved 0x64 0x6F H3 H4))). reflexivity.
Defined.

(** ** Assigning single fields of a register *)

(** Rewrites a chain of field assignments into one stored record. *)
Ltac fields_of_assignments :=
  unfold ControlRegister.set_gain, ControlRegister.set_active_mode,
    ControlRegister.set_sw_reset,
    MeasurementRateRegister.set_integration_time,
    MeasurementRateRegister.set_measurement_repeat_rate;
  rewrite ?control_decode_encode, ?meas_rate_decode_encode;
  unfold ControlRegister_stored, MeasurementRateRegister_stored;
  cbn [ControlRegister.active_mode ControlRegister.sw_reset ControlRegister.gain
       ControlRegister.reserved ControlRegister.decode
       MeasurementRateRegister.measurement_repeat_rate
       MeasurementRateRegister.integration_time
       MeasurementRateRegister.reserved_6 MeasurementRateRegister.reserved_7
       MeasurementRateRegister.decode];
  rewrite ?Gain_of_bits_truncated, ?IntegrationTime_of_bits_truncated,
    ?get_bits3_truncated.

Lemma control_set_gain_decode (g : Gain) (b : uint8_t) :
  ControlRegister.decode (ControlRegister.set_gain g b)
  = ControlRegister.mk (ControlRegister.active_mode (ControlRegister.decode b))
      (ControlRegister.sw_reset (ControlRegister.decode b))
      (truncate3 g)
      (ControlRegister.reserved (ControlRegister.decode b)).
Proof. fields_of_assignments. reflexivity. Qed.

Lemma control_set_active_mode_decode (v : bool) (b : uint8_t) :
  ControlRegister.decode (ControlRegister.set_active_mode v b)
  = ControlRegister.mk v
      (ControlRegister.sw_reset (ControlRegister.decode b))
      (ControlRegister.gain (ControlRegister.decode b))
      (ControlRegister.reserved (ControlRegister.decode b)).
Proof. fields_of_assignments. reflexivity. Qed.

Lemma control_set_sw_reset_decode (v : bool) (b : uint8_t) :
  ControlRegister.decode (ControlRegister.set_sw_reset v b)
  = ControlRegister.mk (ControlRegister.active_mode (ControlRegister.decode b))
      v
      (ControlRegister.gain (ControlRegister.decode b))
      (ControlRegister.reserved (ControlRegister.decode b)).
Proof. fields_of_assignments. reflexivity. Qed.

Lemma control_set_gain_truncates (g : Gain) (b : uint8_t) :
  ControlRegister.set_gain g b = ControlRegister.set_gain (truncate3 g) b.
Proof.
  unfold ControlRegister.set_gain, ControlRegister.encode, put_bits3,
    Gain_to_bits, truncate3.
  cbn [ControlRegister.active_mode ControlRegister.sw_reset ControlRegister.gain
       ControlRegister.reserved].
  rewrite !land7_idem. reflexivity.
Qed.

(** X3. Assigning one field of a ControlRegister is the familiar
    mask-and-or on the byte (gain: clear 0x1C, or in the three low bits of
    the value shifted by 2; active_mode: bit 0; sw_reset: bit 1), and seen
    through the fields it changes the assigned field only: the other three
    fields, reserved included, read as before. *)
Theorem control_field_assignment (b : uint8_t) (g : Gain) (v : bool)
  (Hb : 0 <= b < 256) :
  ControlRegister.set_gain g b = Z.lor (Z.land b 0xE3) (Z.shiftl (truncate3 g) 2)
  /\ ControlRegister.set_active_mode v b = Z.lor (Z.land b 0xFE) (Z.b2z v)
  /\ ControlRegister.set_sw_reset v b
     = Z.lor (Z.land b 0xFD) (Z.shiftl (Z.b2z v) 1)
  /\ ControlRegister.decode (ControlRegister.set_gain g b)
     = ControlRegister.mk (ControlRegister.active_mode (ControlRegister.decode b))
         (ControlRegister.sw_reset (ControlRegister.decode b))
         (truncate3 g)
         (ControlRegister.reserved (ControlRegister.decode b))
  /\ ControlRegister.decode (ControlRegister.set_active_mode v b)
     = ControlRegister.mk v
         (ControlRegister.sw_reset (ControlRegister.decode b))
         (ControlRegister.gain (ControlRegister.decode b))
         (ControlRegister.reserved (ControlRegister.decode b))
  /\ ControlRegister.decode (ControlRegister.set_sw_reset v b)
     = ControlRegister.mk (ControlRegister.active_mode (ControlRegister.decode b))
         v
         (ControlRegister.gain (ControlRegister.decode b))
         (ControlRegister.reserved (ControlRegister.decode b)).
Proof.
  split; [| split; [| split; [| split; [| split]]]].
  - rewrite control_set_gain_truncates. apply Z.eqb_eq.
    revert g. apply (forallb_bits3_elim (fun g' =>
      ControlRegister.set_gain g' b
      =? Z.lor (Z.land b 0xE3) (Z.shiftl g' 2))).
    apply (forall_bytes (fun b => forallb (fun g' =>
      ControlRegister.set_gain g' b
      =? Z.lor (Z.land b 0xE3) (Z.shiftl g' 2)) all_bits3)); [| exact Hb].
    vm_compute. reflexivity.
  - apply Z.eqb_eq. revert v. apply (forallb_bool_elim (fun v =>
      ControlRegister.set_active_mode v b
      =? Z.lor (Z.land b 0xFE) (Z.b2z v))).
    apply (forall_bytes (fun b => forallb (fun v =>
      ControlRegister.set_active_mode v b
      =? Z.lor (Z.land b 0xFE) (Z.b2z v)) [true; false])); [| exact Hb].
    vm_compute. reflexivity.
  - apply Z.eqb_eq. revert v. apply (forallb_bool_elim (fun v =>
      ControlRegister.set_sw_reset v b
      =? Z.lor (Z.land b 0xFD) (Z.shiftl (Z.b2z v) 1))).
    apply (forall_bytes (fun b => forallb (fun v =>
      ControlRegister.set_sw_reset v b
      =? Z.lor (Z.land b 0xFD) (Z.shiftl (Z.b2z v) 1)) [true; false]));
      [| exact Hb].
    vm_compute. reflexivity.
  - apply control_set_gain_decode.
  - apply control_set_active_mode_decode.
  - apply control_set_sw_reset_decode.
Qed.

Lemma control_field_assignment_witness :
  ControlRegister.set_gain GAIN_96 0xE1 = 0xFD
  /\ ControlRegister.set_sw_reset true 0xE1 = 0xE3.
Proof.
  assert (0 <= 0xE1 < 256) as Hb by lia.
  destruct (control_field_assignment 0xE1 GAIN_96 true Hb) as (Hg & _ & Hs & _).
  split; [exact Hg | exact Hs].
Defined.

Lemma meas_rate_set_integration_time_decode (t : IntegrationTime) (b : uint8_t) :
  MeasurementRateRegister.decode (MeasurementRateRegister.set_integration_time t b)
  = MeasurementRateRegister.mk
      (MeasurementRateRegister.measurement_repeat_rate
         (MeasurementRateRegister.decode b))
      (truncate3 t)
      (MeasurementRateRegister.reserved_6 (MeasurementRateRegister.decode b))
      (MeasurementRateRegister.reserved_7 (MeasurementRateRegister.decode b)).
Proof. fields_of_assignments. reflexivity. Qed.

Lemma meas_rate_set_repeat_rate_decode (r : MeasurementRepeatRate) (b : uint8_t) :
  MeasurementRateRegister.decode
    (MeasurementRateRegister.set_measurement_repeat_rate r b)
  = MeasurementRateRegister.mk
      (truncate3 r)
      (MeasurementRateRegister.integration_time (MeasurementRateRegister.decode b))
      (MeasurementRateRegister.reserved_6 (MeasurementRateRegister.decode b))
      (MeasurementRateRegister.reserved_7 (MeasurementRateRegister.decode b)).
Proof. fields_of_assignments. reflexivity. Qed.

Lemma meas_rate_set_integration_time_truncates (t : IntegrationTime) (b : uint8_t) :
  MeasurementRateRegister.set_integration_time t b
  = MeasurementRateRegister.set_integration_time (truncate3 t) b.
Proof.
  unfold MeasurementRateRegister.set_integration_time,
    MeasurementRateRegister.encode, put_bits3, IntegrationTime_to_bits, truncate3.
  cbn [MeasurementRateRegister.measurement_repeat_rate
       MeasurementRateRegister.integration_time
       MeasurementRateRegister.reserved_6 MeasurementRateRegister.reserved_7].
  rewrite !land7_idem. reflexivity.
Qed.

Lemma meas_rate_set_repeat_rate_truncates (r : MeasurementRepeatRate) (b : uint8_t) :
  MeasurementRateRegister.set_measurement_repeat_rate r b
  = MeasurementRateRegister.set_measurement_repeat_rate (truncate3 r) b.
Proof.
  unfold MeasurementRateRegister.set_measurement_repeat_rate,
    MeasurementRateRegister.encode, put_bits3, truncate3.
  cbn [MeasurementRateRegister.measurement_repeat_rate
       MeasurementRateRegister.integration_time
       MeasurementRateRegister.reserved_6 MeasurementRateRegister.reserved_7].
  rewrite !land7_idem. reflexivity.
Qed.

(** X4. Assigning one field of a MeasurementRateRegister is a mask-and-or on
    the byte (integration time: clear 0x38, or in the three low bits of the
    value shifted by 3; repeat rate: clear 0x07, or in its three low bits),
    and seen through the fields it changes the assigned field only: the other
    setting and both reserved bits read as before. *)
Theorem meas_rate_field_assignment
  (b : uint8_t) (t : IntegrationTime) (r : MeasurementRepeatRate)
  (Hb : 0 <= b < 256) :
  MeasurementRateRegister.set_integration_time t b
  = Z.lor (Z.land b 0xC7) (Z.shiftl (truncate3 t) 3)
  /\ MeasurementRateRegister.set_measurement_repeat_rate r b
     = Z.lor (Z.land b 0xF8) (truncate3 r)
  /\ MeasurementRateRegister.decode
       (MeasurementRateRegister.set_integration_time t b)
     = MeasurementRateRegister.mk
         (MeasurementRateRegister.measurement_repeat_rate
            (MeasurementRateRegister.decode b))
         (truncate3 t)
         (MeasurementRateRegister.reserved_6 (MeasurementRateRegister.decode b))
         (MeasurementRateRegister.reserved_7 (MeasurementRateRegister.decode b))
  /\ MeasurementRateRegister.decode
       (MeasurementRateRegister.set_measurement_repeat_rate r b)
     = MeasurementRateRegister.mk
         (truncate3 r)
         (MeasurementRateRegister.integration_time
            (MeasurementRateRegister.decode b))
         (MeasurementRateRegister.reserved_6 (MeasurementRateRegister.decode b))
         (MeasurementRateRegister.reserved_7 (MeasurementRateRegister.decode b)).
Proof.
  split; [| split; [| split]].
  - rewrite meas_rate_set_integration_time_truncates. apply Z.eqb_eq.
    revert t. apply (forallb_bits3_elim (fun t' =>
      MeasurementRateRegister.set_integration_time t' b
      =? Z.lor (Z.land b 0xC7) (Z.shiftl t' 3))).
    apply (forall_bytes (fun b => forallb (fun t' =>
      MeasurementRateRegister.set_integration_time t' b
      =? Z.lor (Z.land b 0xC7) (Z.shiftl t' 3)) all_bits3)); [| exact Hb].
    vm_compute. reflexivity.
  - rewrite meas_rate_set_repeat_rate_truncates. apply Z.eqb_eq.
    revert r. apply (forallb_bits3_elim (fun r' =>
      MeasurementRateRegister.set_measurement_repeat_rate r' b
      =? Z.lor (Z.land b 0xF8) r')).
    apply (forall_bytes (fun b => forallb (fun r' =>
      MeasurementRateRegister.set_measurement_repeat_rate r' b
      =? Z.lor (Z.land b 0xF8) r') all_bits3)); [| exact Hb].
    vm_compute. reflexivity.
  - apply meas_rate_set_integration_time_decode.
  - apply meas_rate_set_repeat_rate_decode.
Qed.

Lemma meas_rate_field_assignment_witness :
  MeasurementRateRegister.set_integration_time INTEGRATION_TIME_400MS 0x03 = 0x1B
  /\ MeasurementRateRegister.set_measurement_repeat_rate REPEAT_RATE_2000MS 0x1B
     = 0x1D.
Proof.
  assert (0 <= 0x03 < 256) as H1 by lia. assert (0 <= 0x1B < 256) as H2 by lia.
  split.
  - exact (proj1 (meas_rate_field_assignment 0x03 INTEGRATION_TIME_400MS 0 H1)).
  - exact (proj1 (proj2 (meas_rate_field_assignment 0x1B 0 REPEAT_RATE_2000MS H2))).
Defined.

(** ** Field assignments, composed *)

(** Two records that store alike encode alike. *)
Lemma control_encode_stored_eq (f f' : ControlRegister.fields) :
  ControlRegister_stored f = ControlRegister_stored f' ->
  ControlRegister.encode f = ControlRegister.encode f'.
Proof.
  intros H.
  transitivity (ControlRegister.encode (ControlRegister_stored f));
    [apply control_encode_truncates |].
  rewrite H. symmetry. apply control_encode_truncates.
Qed.

Lemma meas_rate_encode_stored_eq (f f' : MeasurementRateRegister.fields) :
  MeasurementRateRegister_stored f = MeasurementRateRegister_stored f' ->
  MeasurementRateRegister.encode f = MeasurementRateRegister.encode f'.
Proof.
  intros H.
  transitivity (MeasurementRateRegister.encode (MeasurementRateRegister_stored f));
    [apply meas_rate_encode_truncates |].
  rewrite H. symmetry. apply meas_rate_encode_truncates.
Qed.

(** X5. The field assignments of the two writable registers compose as
    independent cells: assigning a field the value it holds leaves the byte
    as it is, a second assignment to a field makes the first one
    unobservable, and assignments to different fields can be made in either
    order. *)
Theorem field_assignments_compose
  (b : uint8_t) (g g' : Gain) (v v' : bool)
  (t t' : IntegrationTime) (r r' : MeasurementRepeatRate)
  (Hb : 0 <= b < 256) :
  (* assigning what is there *)
  (ControlRegister.set_gain (ControlRegister.gain (ControlRegister.decode b)) b = b
   /\ ControlRegister.set_active_mode
        (ControlRegister.active_mode (ControlRegister.decode b)) b = b
   /\ ControlRegister.set_sw_reset
        (ControlRegister.sw_reset (ControlRegister.decode b)) b = b
   /\ MeasurementRateRegister.set_integration_time
        (MeasurementRateRegister.integration_time
           (MeasurementRateRegister.decode b)) b = b
   /\ MeasurementRateRegister.set_measurement_repeat_rate
        (MeasurementRateRegister.measurement_repeat_rate
           (MeasurementRateRegister.decode b)) b = b)
  (* the last assignment to a field wins *)
  /\ (ControlRegister.set_gain g (ControlRegister.set_gain g' b)
      = ControlRegister.set_gain g b
      /\ ControlRegister.set_active_mode v (ControlRegister.set_active_mode v' b)
         = ControlRegister.set_active_mode v b
      /\ ControlRegister.set_sw_reset v (ControlRegister.set_sw_reset v' b)
         = ControlRegister.set_sw_reset v b
      /\ MeasurementRateRegister.set_integration_time t
           (MeasurementRateRegister.set_integration_time t' b)
         = MeasurementRateRegister.set_integration_time t b
      /\ MeasurementRateRegister.set_measurement_repeat_rate r
           (MeasurementRateRegister.set_measurement_repeat_rate r' b)
         = MeasurementRateRegister.set_measurement_repeat_rate r b)
  (* different fields do not interfere *)
  /\ (ControlRegister.set_gain g (ControlRegister.set_active_mode v b)
      = ControlRegister.set_active_mode v (ControlRegister.set_gain g b)
      /\ ControlRegister.set_gain g (ControlRegister.set_sw_reset v b)
         = ControlRegister.set_sw_reset v (ControlRegister.set_gain g b)
      /\ ControlRegister.set_active_mode v (ControlRegister.set_sw_reset v' b)
         = ControlRegister.set_sw_reset v' (ControlRegister.set_active_mode v b)
      /\ MeasurementRateRegister.set_integration_time t
           (MeasurementRateRegister.set_measurement_repeat_rate r b)
         = MeasurementRateRegister.set_measurement_repeat_rate r
             (MeasurementRateRegister.set_integration_time t b)).
Proof.
  split; [| split].
  - pose proof (control_encode_decode b Hb) as Hc.
    pose proof (meas_rate_encode_decode b Hb) as Hm.
    unfold ControlRegister.encode, ControlRegister.decode in Hc.
    unfold MeasurementRateRegister.encode, MeasurementRateRegister.decode in Hm.
    repeat split;
      unfold ControlRegister.set_gain, ControlRegister.set_active_mode,
        ControlRegister.set_sw_reset,
        MeasurementRateRegister.set_integration_time,
        MeasurementRateRegister.set_measurement_repeat_rate,
        ControlRegister.encode, ControlRegister.decode,
        MeasurementRateRegister.encode, MeasurementRateRegister.decode;
      assumption.
  - repeat split; fields_of_assignments; reflexivity.
  - repeat split; fields_of_assignments;
      first [ apply control_encode_stored_eq | apply meas_rate_encode_stored_eq ];
      unfold ControlRegister_stored, MeasurementRateRegister_stored;
      cbn [ControlRegister.active_mode ControlRegister.sw_reset
           ControlRegister.gain ControlRegister.reserved
           MeasurementRateRegister.measurement_repeat_rate
           MeasurementRateRegister.integration_time
           MeasurementRateRegister.reserved_6 MeasurementRateRegister.reserved_7];
      rewrite ?truncate3_idem; reflexivity.
Qed.

Lemma field_assignments_compose_witness :
  ControlRegister.set_gain GAIN_8 (ControlRegister.set_active_mode true 0xE0)
  = ControlRegister.set_active_mode true (ControlRegister.set_gain GAIN_8 0xE0)
  /\ ControlRegister.set_gain GAIN_1 0xE0 = 0xE0.
Proof.
  assert (0 <= 0xE0 < 256) as Hb by lia.
  destruct (field_assignments_compose 0xE0 GAIN_8 GAIN_1 true false
              INTEGRATION_TIME_100MS INTEGRATION_TIME_100MS
              REPEAT_RATE_500MS REPEAT_RATE_500MS Hb)
    as ((Hsame & _) & _ & (Hcomm & _)).
  split; [exact Hcomm | exact Hsame].
Defined.

(** ** Addresses and enumerations *)

(** X6. No two registers share an address: the address of a
    CommandRegisters enumerator determines the enumerator.  Every address is
    a byte in 0x80..0x8C, and the four data registers are consecutive, the
    low byte of a channel right below its high byte and CH1 below CH0. *)
Theorem register_addresses_distinct (r r' : CommandRegisters) :
  (CommandRegisters_value r = CommandRegisters_value r' <-> r = r')
  /\ 0x80 <= CommandRegisters_value r <= 0x8C
  /\ NoDup fixed_addresses
  /\ CommandRegisters_value CH1_1 = CommandRegisters_value CH1_0 + 1
  /\ CommandRegisters_value CH0_0 = CommandRegisters_value CH1_1 + 1
  /\ CommandRegisters_value CH0_1 = CommandRegisters_value CH0_0 + 1.
Proof.
  split; [| split; [| split; [| repeat split]]].
  - split; [| intros ->; reflexivity].
    destruct r, r'; simpl; intros H; try reflexivity; discriminate H.
  - destruct r; simpl; lia.
  - unfold fixed_addresses. simpl.
    repeat (apply NoDup_cons; [simpl; lia |]).
    apply NoDup_nil.
Qed.

Lemma MeasurementRepeatRate_enumerators_bits3 (r : MeasurementRepeatRate) :
  In r MeasurementRepeatRate_enumerators -> 0 <= r < 6.
Proof.
  simpl.
  unfold REPEAT_RATE_50MS, REPEAT_RATE_100MS, REPEAT_RATE_200MS,
    REPEAT_RATE_500MS, REPEAT_RATE_1000MS, REPEAT_RATE_2000MS.
  lia.
Qed.

(** X7. The repeat rate on the wire: every MeasurementRepeatRate enumerator
    fits the 3-bit field, so storing it into a MeasurementRateRegister beside
    any integration time and reading it back returns it, and returns the
    integration time cut to three bits; of the eight patterns the field can
    read, exactly 6 and 7 name no enumerator. *)
Theorem repeat_rate_on_the_wire
  (r : MeasurementRepeatRate) (t : IntegrationTime) (r6 r7 : bool) (b : uint8_t)
  (Hr : In r MeasurementRepeatRate_enumerators) :
  MeasurementRateRegister.decode
    (MeasurementRateRegister.encode (MeasurementRateRegister.mk r t r6 r7))
  = MeasurementRateRegister.mk r (truncate3 t) r6 r7
  /\ MeasurementRateRegister.measurement_repeat_rate
       (MeasurementRateRegister.decode
          (MeasurementRateRegister.set_measurement_repeat_rate r b)) = r
  /\ (is_enumerator MeasurementRepeatRate_enumerators
        (MeasurementRateRegister.measurement_repeat_rate
           (MeasurementRateRegister.decode b)) = false
      <-> get_bits3 b 0 = 6 \/ get_bits3 b 0 = 7).
Proof.
  pose proof (MeasurementRepeatRate_enumerators_bits3 r Hr) as Hr6.
  assert (truncate3 r = r) as Htr by (apply truncate3_fits; unfold fits3; lia).
  split; [| split].
  - rewrite meas_rate_decode_encode. unfold MeasurementRateRegister_stored.
    cbn [MeasurementRateRegister.measurement_repeat_rate
         MeasurementRateRegister.integration_time
         MeasurementRateRegister.reserved_6 MeasurementRateRegister.reserved_7].
    rewrite Htr. reflexivity.
  - rewrite meas_rate_set_repeat_rate_decode.
    cbn [MeasurementRateRegister.measurement_repeat_rate]. exact Htr.
  - cbn [MeasurementRateRegister.decode
         MeasurementRateRegister.measurement_repeat_rate].
    rewrite <- (get_bits3_truncated b 0).
    generalize (get_bits3 b 0). intros p.
    pose proof (forallb_bits3_elim (fun p =>
      Bool.eqb (is_enumerator MeasurementRepeatRate_enumerators p)
               (negb ((p =? 6) || (p =? 7)))) eq_refl p) as Hp.
    cbv beta in Hp. apply Bool.eqb_prop in Hp. rewrite Hp.
    destruct (truncate3 p =? 6) eqn:H6; [apply Z.eqb_eq in H6 | apply Z.eqb_neq in H6];
      (destruct (truncate3 p =? 7) eqn:H7;
       [apply Z.eqb_eq in H7 | apply Z.eqb_neq in H7]);
      simpl; split; intros H; try discriminate; try tauto; try lia.
Qed.

Lemma repeat_rate_on_the_wire_witness :
  MeasurementRateRegister.decode
    (MeasurementRateRegister.encode
       (MeasurementRateRegister.mk REPEAT_RATE_2000MS INTEGRATION_TIME_350MS
          false false))
  = MeasurementRateRegister.mk REPEAT_RATE_2000MS INTEGRATION_TIME_350MS false false.
Proof.
  assert (In REPEAT_RATE_2000MS MeasurementRepeatRate_enumerators) as Hr
    by (simpl; tauto).
  exact (proj1 (repeat_rate_on_the_wire REPEAT_RATE_2000MS INTEGRATION_TIME_350MS
                  false false 0 Hr)).
Defined.

(** X8. The enumerations against their fields and counts: the
    IntegrationTime enumerators are exactly the eight patterns of a 3-bit
    field, TIMES_COUNT of them; the Gain enumerators are the patterns other
    than 4 and 5, GAINS_COUNT of them; the MeasurementRepeatRate enumerators
    are the patterns below 6; and no enumeration lists a value twice. *)
Theorem enumerators_and_patterns (p : Z) :
  (In p IntegrationTime_enumerators <-> fits3 p)
  /\ (In p Gain_enumerators <-> fits3 p /\ p <> 4 /\ p <> 5)
  /\ (In p MeasurementRepeatRate_enumerators <-> 0 <= p < 6)
  /\ NoDup Gain_enumerators
  /\ NoDup IntegrationTime_enumerators
  /\ NoDup MeasurementRepeatRate_enumerators
  /\ Z.of_nat (length Gain_enumerators) = GAINS_COUNT
  /\ Z.of_nat (length IntegrationTime_enumerators) = TIMES_COUNT
  /\ TIMES_COUNT = 2 ^ 3.
Proof.
  unfold fits3.
  split; [| split; [| split; [| split; [| split; [| split; [| repeat split]]]]]].
  - simpl.
    unfold INTEGRATION_TIME_100MS, INTEGRATION_TIME_50MS, INTEGRATION_TIME_200MS,
      INTEGRATION_TIME_400MS, INTEGRATION_TIME_150MS, INTEGRATION_TIME_250MS,
      INTEGRATION_TIME_300MS, INTEGRATION_TIME_350MS.
    lia.
  - simpl. unfold GAIN_1, GAIN_2, GAIN_4, GAIN_8, GAIN_48, GAIN_96. lia.
  - simpl.
    unfold REPEAT_RATE_50MS, REPEAT_RATE_100MS, REPEAT_RATE_200MS,
      REPEAT_RATE_500MS, REPEAT_RATE_1000MS, REPEAT_RATE_2000MS.
    lia.
  - unfold Gain_enumerators, GAIN_1, GAIN_2, GAIN_4, GAIN_8, GAIN_48, GAIN_96.
    repeat (apply NoDup_cons; [simpl; lia |]). apply NoDup_nil.
  - unfold IntegrationTime_enumerators,
      INTEGRATION_TIME_100MS, INTEGRATION_TIME_50MS, INTEGRATION_TIME_200MS,
      INTEGRATION_TIME_400MS, INTEGRATION_TIME_150MS, INTEGRATION_TIME_250MS,
      INTEGRATION_TIME_300MS, INTEGRATION_TIME_350MS.
    repeat (apply NoDup_cons; [simpl; lia |]). apply NoDup_nil.
  - unfold MeasurementRepeatRate_enumerators,
      REPEAT_RATE_50MS, REPEAT_RATE_100MS, REPEAT_RATE_200MS,
      REPEAT_RATE_500MS, REPEAT_RATE_1000MS, REPEAT_RATE_2000MS.
    repeat (apply NoDup_cons; [simpl; lia |]). apply NoDup_nil.
Qed.

(** * Sequences of configuration calls *)

Lemma Member_eqb_eq (a b : Member) : Member_eqb a b = true <-> a = b.
Proof.
  split.
  - destruct a, b; simpl; intros H; try reflexivity; discriminate H.
  - intros ->. destruct b; reflexivity.
Qed.

(** What a member holds after one call. *)
Lemma call_member (s : SetterCall) (m : Member) (this : LTR303Component) :
  member m (call s this)
  = if Member_eqb (target s) m then written s else member m this.
Proof. destruct s, m; reflexivity. Qed.

(** What a member holds after a sequence of calls, [found] being what was
    last written to it before the sequence. *)
Lemma configure_member (calls : list SetterCall) (m : Member) :
  forall (this first : LTR303Component) (found : option MemberValue),
  member m this = match found with Some v => v | None => member m first end ->
  member m (configure calls this)
  = match fold_left
            (fun found s => if Member_eqb (target s) m then Some (written s) else found)
            calls found
    with Some v => v | None => member m first end.
Proof.
  unfold configure.
  induction calls as [| s rest IH]; intros this first found Hfound; simpl.
  - exact Hfound.
  - apply IH. rewrite call_member.
    destruct (Member_eqb (target s) m); [reflexivity | exact Hfound].
Qed.

(** X9. Two setter calls in a row: when both target the same member the
    second call alone would have done (the first value is lost), otherwise
    the two calls can be swapped. *)
Theorem setter_calls_compose (first second : SetterCall) (this : LTR303Component) :
  call second (call first this)
  = if Member_eqb (target second) (target first)
    then call second this
    else call first (call second this).
Proof. destruct first, second; reflexivity. Qed.

(** X10. After any sequence of setter calls a member holds what the last call
    that targets it wrote, and what it held before the sequence when no call
    targets it. *)
Theorem configure_last_write_wins
  (calls : list SetterCall) (m : Member) (this : LTR303Component) :
  member m (configure calls this)
  = match last_write m calls with
    | Some v => v
    | None => member m this
    end.
Proof. unfold last_write. apply configure_member. reflexivity. Qed.

Lemma target_is_configuration (s : SetterCall) :
  target s <> M_state /\ target s <> M_readings.
Proof. destruct s; split; discriminate. Qed.

(** X11. No sequence of setter calls moves the state machine or touches the
    readings record; however a freshly constructed component is configured,
    it is still NOT_INITIALIZED with the default readings. *)
Theorem configure_keeps_state_and_readings
  (calls : list SetterCall) (this : LTR303Component) :
  state_ (configure calls this) = state_ this
  /\ readings_ (configure calls this) = readings_ this
  /\ state_ (configure calls LTR303Component_init) = NOT_INITIALIZED
  /\ readings_ (configure calls LTR303Component_init) = Readings_init.
Proof.
  assert (forall c, state_ (configure calls c) = state_ c
                    /\ readings_ (configure calls c) = readings_ c) as H.
  { unfold configure. induction calls as [| s rest IH]; intros c; simpl.
    - split; reflexivity.
    - destruct (IH (call s c)) as [Hs Hr]. rewrite Hs, Hr.
      destruct s; split; reflexivity. }
  destruct (H this) as [Hs Hr]. destruct (H LTR303Component_init) as [Hs0 Hr0].
  repeat split; assumption.
Qed.

Lemma last_write_targeted (m : Member) (calls : list SetterCall) :
  forall found,
  targeted m calls = true ->
  exists v,
    fold_left
      (fun found s => if Member_eqb (target s) m then Some (written s) else found)
      calls found = Some v
    /\ forall found',
       fold_left
         (fun found s => if Member_eqb (target s) m then Some (written s) else found)
         calls found' = Some v.
Proof.
  unfold targeted.
  induction calls as [| s rest IH]; intros found Hcalls; simpl in *.
  - discriminate Hcalls.
  - destruct (existsb (fun s0 => Member_eqb (target s0) m) rest) eqn:Hrest.
    + destruct (IH (if Member_eqb (target s) m then Some (written s) else found)
                  eq_refl) as (v & Hv & Hany).
      exists v. split; [exact Hv | intros found'; apply Hany].
    + rewrite orb_false_r in Hcalls. rewrite Hcalls.
      assert (forall acc,
        fold_left
          (fun found s => if Member_eqb (target s) m then Some (written s) else found)
          rest acc = acc) as Hkeep.
      { clear IH Hcalls. induction rest as [| s' rest' IH']; intros acc; simpl.
        - reflexivity.
        - simpl in Hrest. apply orb_false_iff in Hrest. destruct Hrest as [Hs' Hr'].
          rewrite Hs'. apply IH'. exact Hr'. }
      exists (written s). split; [apply Hkeep | intros found'; apply Hkeep].
Qed.

(** X12. Once a sequence of setter calls has targeted every configuration
    member, the configuration no longer depends on what was there before: two
    components with the same state and readings come out equal. *)
Theorem configure_all_determines
  (calls : list SetterCall) (this other : LTR303Component)
  (Hall : forallb (fun m => targeted m calls) configuration_members = true)
  (Hstate : state_ this = state_ other)
  (Hreadings : readings_ this = readings_ other) :
  configure calls this = configure calls other.
Proof.
  apply member_ext. intros m.
  rewrite forallb_forall in Hall.
  assert (forall c, state_ (configure calls c) = state_ c
                    /\ readings_ (configure calls c) = readings_ c) as Hkeep.
  { unfold configure. clear. induction calls as [| s rest IH]; intros c; simpl.
    - split; reflexivity.
    - destruct (IH (call s c)) as [Hs Hr]. rewrite Hs, Hr.
      destruct s; split; reflexivity. }
  destruct (Hkeep this) as [Hs1 Hr1]. destruct (Hkeep other) as [Hs2 Hr2].
  destruct m;
    try (simpl; congruence);
    match goal with |- member ?m _ = member ?m _ =>
      assert (targeted m calls = true) as Ht by (apply Hall; simpl; tauto);
      destruct (last_write_targeted m calls None Ht) as (v & Hv & _);
      rewrite (configure_member calls m this this None eq_refl),
              (configure_member calls m other other None eq_refl), Hv;
      reflexivity
    end.
Qed.

Lemma configure_all_determines_witness :
  configure
    [Call_set_gain GAIN_48; Call_set_integration_time INTEGRATION_TIME_200MS;
     Call_set_repeat_rate REPEAT_RATE_1000MS;
     Call_set_glass_attenuation_factor float_one;
     Call_set_enable_automatic_mode false;
     Call_set_ambient_light_sensor (Some 1%positive);
     Call_set_full_spectrum_counts_sensor nullptr;
     Call_set_infrared_counts_sensor nullptr;
     Call_set_actual_gain_sensor nullptr;
     Call_set_actual_integration_time_sensor nullptr;
     Call_set_gain GAIN_96]
    (set_gain GAIN_2 LTR303Component_init)
  = configure
    [Call_set_gain GAIN_48; Call_set_integration_time INTEGRATION_TIME_200MS;
     Call_set_repeat_rate REPEAT_RATE_1000MS;
     Call_set_glass_attenuation_factor float_one;
     Call_set_enable_automatic_mode false;
     Call_set_ambient_light_sensor (Some 1%positive);
     Call_set_full_spectrum_counts_sensor nullptr;
     Call_set_infrared_counts_sensor nullptr;
     Call_set_actual_gain_sensor nullptr;
     Call_set_actual_integration_time_sensor nullptr;
     Call_set_gain GAIN_96]
    LTR303Component_init.
Proof.
  apply configure_all_determines; reflexivity.
Defined.

(** * Photometric Converter (C7) *)

(** ** Signs in binary32 arithmetic *)

(** Rounding a magnitude with the positive sign gives nothing below zero. *)
Lemma round_positive_not_negative (m e : Z) (l : location) :
  SFltb (binary_round_aux float_prec float_emax false m e l) float_zero = false.
Proof.
  unfold binary_round_aux.
  destruct (shr_fexp float_prec float_emax m e l) as [mrs' e'].
  destruct (shr_fexp float_prec float_emax
              (round_nearest_even (shr_m mrs') (loc_of_shr_record mrs')) e' loc_Exact)
    as [mrs'' e''].
  destruct (shr_m mrs'') as [| q | q]; [reflexivity | | reflexivity].
  destruct (e'' <=? float_emax - float_prec); reflexivity.
Qed.

(** The product of a datum that is not below zero and a positive factor is
    not below zero. *)
Lemma mul_positive_not_negative (x factor : float) :
  SFltb x float_zero = false ->
  SFltb float_zero factor = true ->
  SFltb (float_mul x factor) float_zero = false.
Proof.
  intros Hx Hfactor.
  destruct factor as [sf | sf | | sf mf ef]; try discriminate Hfactor;
    destruct sf; try discriminate Hfactor;
    destruct x as [sx | sx | | sx mx ex]; try reflexivity;
    destruct sx; try discriminate Hx; try reflexivity.
  apply round_positive_not_negative.
Qed.

Lemma clamp_negative_not_negative (x : float) :
  SFltb (clamp_negative x) float_zero = false.
Proof.
  unfold clamp_negative. destruct (SFltb x float_zero) eqn:Hx; [reflexivity | exact Hx].
Qed.

(** A datum that is not below zero is a NaN or at least zero. *)
Lemma not_negative_cases (x : float) :
  SFltb x float_zero = false -> x = S754_nan \/ SFleb float_zero x = true.
Proof.
  destruct x as [s | s | | s m e]; try destruct s; simpl; intros H;
    try discriminate H; auto.
Qed.

(** The product with an infinite factor is never a number. *)
Lemma mul_infinity_not_finite (x : float) :
  is_finite_float (float_mul x (S754_infinity false)) = false.
Proof. destruct x; reflexivity. Qed.

(** ** The lux value *)

(** What a call of [apply_lux_calculation_] leaves in [lux]. *)
Lemma apply_lux_calculation_lux
  (saturation_ratio : float) (ratio_buckets : list (float * (float * float)))
  (gain_multiplier : Gain -> float) (time_multiplier : IntegrationTime -> float)
  (this : LTR303Component) (data : Readings) :
  lux (apply_lux_calculation_ saturation_ratio ratio_buckets
         gain_multiplier time_multiplier this data)
  = if (ch0 data =? 0) && (ch1 data =? 0) then float_zero
    else if SFltb saturation_ratio (channel_ratio data) then float_zero
    else float_mul
           (clamp_negative
              (piecewise ratio_buckets gain_multiplier time_multiplier data))
           (glass_attenuation_factor_ this).
Proof.
  unfold apply_lux_calculation_.
  destruct ((ch0 data =? 0) && (ch1 data =? 0)); [reflexivity |].
  destruct (SFltb saturation_ratio (channel_ratio data)); reflexivity.
Qed.

(** With an infinite attenuation factor, whatever the tables, a sample that
    is neither dark nor above the saturation ratio gets a lux that is no
    number: the overflow below is not a matter of the tables chosen. *)
Lemma lux_not_finite_at_infinite_factor
  (saturation_ratio : float) (ratio_buckets : list (float * (float * float)))
  (gain_multiplier : Gain -> float) (time_multiplier : IntegrationTime -> float)
  (this : LTR303Component) (data : Readings) :
  glass_attenuation_factor_ this = S754_infinity false ->
  (ch0 data =? 0) && (ch1 data =? 0) = false ->
  SFltb saturation_ratio (channel_ratio data) = false ->
  is_finite_float
    (lux (apply_lux_calculation_ saturation_ratio ratio_buckets
            gain_multiplier time_multiplier this data)) = false.
Proof.
  intros Hfactor Hlit Hratio.
  rewrite apply_lux_calculation_lux, Hlit, Hratio, Hfactor.
  apply mul_infinity_not_finite.
Qed.

(** The claim as written fails: the lux value need not be finite.  With the
    multipliers the specification names and a table that passes CH0 through,
    a record with valid enumerators (GAIN_1, 100 ms) and counts ch0 = 2,
    ch1 = 0 under the positive attenuation factor FLT_MAX gets
    2 * FLT_MAX, which overflows to +infinity. *)
Lemma lux_overflows :
  SFltb float_zero (glass_attenuation_factor_ overflow_component) = true
  /\ valid_binary float_prec float_emax
       (glass_attenuation_factor_ overflow_component) = true
  /\ is_enumerator Gain_enumerators (actual_gain overflow_sample) = true
  /\ is_enumerator IntegrationTime_enumerators (integration_time overflow_sample)
     = true
  /\ lux (example_lux overflow_component overflow_sample) = S754_infinity false
  /\ is_finite_float (lux (example_lux overflow_component overflow_sample))
     = false.
Proof. vm_compute. repeat split. Qed.

(** C7 (amended). For every readings record (with valid gain and
    integration-time enumerators, or not) and every positive glass
    attenuation factor, whatever the tables of the converter,
    apply_lux_calculation_ produces a lux value that is never negative: it is
    not below zero, that is, it is at least zero or no number at all (it may
    overflow to +infinity under a large factor).  It produces exactly 0 when
    ch0 = 0 and ch1 = 0, and when the channel ratio exceeds the saturation
    ratio; a negative result of the piecewise formula is clamped to 0 before
    the factor is applied, so that it gives exactly 0 under a finite factor.
    The rest of the record is left as it was. *)
Theorem lux_never_negative
  (saturation_ratio : float) (ratio_buckets : list (float * (float * float)))
  (gain_multiplier : Gain -> float) (time_multiplier : IntegrationTime -> float)
  (this : LTR303Component) (data : Readings)
  (Hfactor : SFltb float_zero (glass_attenuation_factor_ this) = true) :
  let out := apply_lux_calculation_ saturation_ratio ratio_buckets
               gain_multiplier time_multiplier this data in
  SFltb (lux out) float_zero = false
  /\ (lux out = S754_nan \/ SFleb float_zero (lux out) = true)
  /\ (ch0 data = 0 -> ch1 data = 0 -> lux out = float_zero)
  /\ (SFltb saturation_ratio (channel_ratio data) = true -> lux out = float_zero)
  /\ (SFltb (piecewise ratio_buckets gain_multiplier time_multiplier data)
            float_zero = true ->
      is_finite_float (glass_attenuation_factor_ this) = true ->
      lux out = float_zero)
  /\ ch0 out = ch0 data /\ ch1 out = ch1 data
  /\ actual_gain out = actual_gain data
  /\ integration_time out = integration_time data.
Proof.
  intros out.
  assert (SFltb (lux out) float_zero = false) as Hsign.
  { subst out. rewrite apply_lux_calculation_lux.
    destruct ((ch0 data =? 0) && (ch1 data =? 0)); [reflexivity |].
    destruct (SFltb saturation_ratio (channel_ratio data)); [reflexivity |].
    apply mul_positive_not_negative;
      [apply clamp_negative_not_negative | exact Hfactor]. }
  split; [exact Hsign |]. split; [apply not_negative_cases, Hsign |].
  split; [| split; [| split]].
  - intros H0 H1. subst out. rewrite apply_lux_calculation_lux, H0, H1.
    reflexivity.
  - intros Hsat. subst out. rewrite apply_lux_calculation_lux, Hsat.
    destruct ((ch0 data =? 0) && (ch1 data =? 0)); reflexivity.
  - intros Hneg Hfinite. subst out. rewrite apply_lux_calculation_lux.
    destruct ((ch0 data =? 0) && (ch1 data =? 0)); [reflexivity |].
    destruct (SFltb saturation_ratio (channel_ratio data)); [reflexivity |].
    unfold clamp_negative. rewrite Hneg.
    destruct (glass_attenuation_factor_ this) as [s | s | | s m e];
      try discriminate Hfinite; destruct s; try discriminate Hfactor.
    reflexivity.
  - subst out. unfold apply_lux_calculation_.
    destruct ((ch0 data =? 0) && (ch1 data =? 0));
      [| destruct (SFltb saturation_ratio (channel_ratio data))];
      repeat split.
Qed.

Lemma lux_never_negative_witness :
  SFltb (lux (example_lux LTR303Component_init
                (mkReadings 1000 100 GAIN_1 INTEGRATION_TIME_100MS float_zero)))
        float_zero = false
  /\ lux (example_lux LTR303Component_init
            (mkReadings 0 0 GAIN_96 INTEGRATION_TIME_400MS float_one))
     = float_zero.
Proof.
  assert (SFltb float_zero (glass_attenuation_factor_ LTR303Component_init) = true)
    as Hfactor by reflexivity.
  split.
  - exact (proj1 (lux_never_negative float_one example_ratio_buckets
                    example_gain_multiplier example_time_multiplier
                    LTR303Component_init
                    (mkReadings 1000 100 GAIN_1 INTEGRATION_TIME_100MS float_zero)
                    Hfactor)).
  - destruct (lux_never_negative float_one example_ratio_buckets
                example_gain_multiplier example_time_multiplier
                LTR303Component_init
                (mkReadings 0 0 GAIN_96 INTEGRATION_TIME_400MS float_one)
                Hfactor) as (_ & _ & Hdark & _).
    apply Hdark; reflexivity.
Defined.

Example lux_of_a_sample :
  lux (example_lux LTR303Component_init
         (mkReadings 1000 100 GAIN_2 INTEGRATION_TIME_200MS float_zero))
  = float_of_count 250.
Proof. vm_compute. reflexivity. Qed.
